(** * trojan-go: router, redirector, TLS client, logging and hashing helpers

    A shallow embedding of the parts of trojan-go that its specification
    makes checkable statements about, with the statements proved (or
    refuted) against the embedded code.

    Conventions.
    - A Go [string] is a byte sequence: Stdlib [string] (a list of [ascii]).
    - A Go [int], [uint32], [slog.Level] is a [Z]; conversions that wrap are
      written out.
    - A Go [[]byte] / [net.IP] is a [list Z] of values in [0, 256); a nil
      slice is the empty list, and a nil test that the code performs on a
      result is an [option].
    - Functions of the Go standard library and of packages that the
      repository imports but does not define are taken as fields of a
      runtime record and instantiated only in examples. *)

From Stdlib Require Import ZArith List String Ascii Bool Lia.
Import ListNotations.
Open Scope string_scope.
Open Scope Z_scope.

(** ** Go's [strings] package, on byte strings *)

Module GoStrings.

Definition len (s : string) : Z := Z.of_nat (String.length s).

(** [strings.HasPrefix(s, p)] *)
Definition HasPrefix (s p : string) : bool := String.prefix p s.

(** [s[n:]] for [0 <= n <= len s] *)
Fixpoint drop (n : nat) (s : string) : string :=
  match n, s with
  | O, _ => s
  | S n', String _ s' => drop n' s'
  | S _, EmptyString => EmptyString
  end.

(** [strings.HasSuffix(s, suffix)]:
    [len(s) >= len(suffix) && s[len(s)-len(suffix):] == suffix] *)
Definition HasSuffix (s suffix : string) : bool :=
  (String.length suffix <=? String.length s)%nat
  && String.eqb (drop (String.length s - String.length suffix) s) suffix.

(** [strings.Index(s, substr)]: the index of the first occurrence of
    [substr] in [s], or [-1]. [IndexFrom] carries the offset of the part
    of [s] still to be scanned. *)
Fixpoint IndexFrom (i : Z) (s substr : string) : Z :=
  if String.prefix substr s then i
  else match s with
       | EmptyString => -1
       | String _ s' => IndexFrom (i + 1) s' substr
       end.

Definition Index (s substr : string) : Z := IndexFrom 0 s substr.

(** [strings.Contains(s, substr)] is [Index(s, substr) >= 0] *)
Definition Contains (s substr : string) : bool := Z.leb 0 (Index s substr).

(** [s[i]]; the code only indexes inside the string *)
Definition byte_at (s : string) (i : Z) : option ascii :=
  if i <? 0 then None else String.get (Z.to_nat i) s.

Definition byte_is (s : string) (i : Z) (c : ascii) : bool :=
  match byte_at s i with
  | Some b => Ascii.eqb b c
  | None => false
  end.

(** [strings.Split(s, "/")] for a one-byte separator: the pieces between
    separators, [n+1] pieces for [n] separators. *)
Fixpoint SplitByte (sep : ascii) (s : string) : list string :=
  match s with
  | EmptyString => [EmptyString]
  | String c s' =>
      if Ascii.eqb c sep then EmptyString :: SplitByte sep s'
      else match SplitByte sep s' with
           | [] => [String c EmptyString]
           | p :: ps => String c p :: ps
           end
  end.

End GoStrings.

(** ** Go's [net] package: the IP operations that [matchIP] calls *)

Module GoNet.

(** [net.IP] and [net.IPMask]: byte slices *)
Definition IP := list Z.
Definition IPMask := list Z.

Definition IPv4len : Z := 4.
Definition IPv6len : Z := 16.

Definition len {A} (l : list A) : Z := Z.of_nat (List.length l).

Definition v4InV6Prefix : list Z := [0; 0; 0; 0; 0; 0; 0; 0; 0; 0; 255; 255].

Definition bytesEqual (a b : list Z) : bool :=
  if list_eq_dec Z.eq_dec a b then true else false.

Definition allFF (b : list Z) : bool := forallb (Z.eqb 255) b.

(** [ip.To4()]: the 4-byte form of an IPv4 address, [None] for nil *)
Definition To4 (ip : IP) : option IP :=
  if len ip =? IPv4len then Some ip
  else if (len ip =? IPv6len) && bytesEqual (firstn 12 ip) v4InV6Prefix
       then Some (skipn 12 ip)
       else None.

(** The loop of [net.CIDRMask]: [l] bytes with the first [n] bits set *)
Fixpoint maskBytes (l : nat) (n : Z) : list Z :=
  match l with
  | O => []
  | S l' =>
      if 8 <=? n then 255 :: maskBytes l' (n - 8)
      else Z.lxor 255 (Z.shiftr 255 n) :: maskBytes l' 0
  end.

(** [net.CIDRMask(ones, bits)]; nil is [[]] *)
Definition CIDRMask (ones bits : Z) : IPMask :=
  if negb (bits =? 8 * IPv4len) && negb (bits =? 8 * IPv6len) then []
  else if (ones <? 0) || (bits <? ones) then []
  else maskBytes (Z.to_nat (bits / 8)) ones.

Fixpoint andBytes (a b : list Z) : list Z :=
  match a, b with
  | x :: a', y :: b' => Z.land x y :: andBytes a' b'
  | _, _ => []
  end.

(** [ip.Mask(mask)]; nil is [[]] *)
Definition Mask (ip : IP) (mask : IPMask) : IP :=
  let mask :=
    if (len mask =? IPv6len) && (len ip =? IPv4len) && allFF (firstn 12 mask)
    then skipn 12 mask else mask in
  let ip :=
    if (len mask =? IPv4len) && (len ip =? IPv6len)
       && bytesEqual (firstn 12 ip) v4InV6Prefix
    then skipn 12 ip else ip in
  if negb (len ip =? len mask) then [] else andBytes ip mask.

Record IPNet := { IPNet_IP : IP; IPNet_Mask : IPMask }.

(** [networkNumberAndMask(n)]; [(nil, nil)] is [([], [])] *)
Definition networkNumberAndMask (n : IPNet) : IP * IPMask :=
  let body (ip : IP) :=
    if len (IPNet_Mask n) =? IPv4len then
      if negb (len ip =? IPv4len) then ([], []) else (ip, IPNet_Mask n)
    else if len (IPNet_Mask n) =? IPv6len then
      if len ip =? IPv4len then (ip, skipn 12 (IPNet_Mask n))
      else (ip, IPNet_Mask n)
    else ([], []) in
  match To4 (IPNet_IP n) with
  | Some ip => body ip
  | None =>
      if negb (len (IPNet_IP n) =? IPv6len) then ([], [])
      else body (IPNet_IP n)
  end.

(** The comparison loop of [IPNet.Contains] over [l = len ip] bytes *)
Fixpoint sameNetwork (nn m ip : list Z) : bool :=
  match ip with
  | [] => true
  | x :: ip' =>
      match nn, m with
      | a :: nn', b :: m' =>
          (Z.land a b =? Z.land x b) && sameNetwork nn' m' ip'
      | _, _ => false
      end
  end.

(** [n.Contains(ip)] *)
Definition Contains (n : IPNet) (ip : IP) : bool :=
  let '(nn, m) := networkNumberAndMask n in
  let ip := match To4 ip with Some x => x | None => ip end in
  if negb (len ip =? len nn) then false else sameNetwork nn m ip.

End GoNet.

(** ** Results of fallible Go calls: a value, or the error's message *)

Inductive result (A : Type) : Type :=
| Ok (a : A)
| Err (msg : string).
Arguments Ok {A} a.
Arguments Err {A} msg.

Definition is_Err {A} (r : result A) : bool :=
  match r with Ok _ => false | Err _ => true end.

(** ** tunnel/router/client.go *)

Module Router.

(** *** Data *)

Definition Block : Z := 0.
Definition Bypass : Z := 1.
Definition Proxy : Z := 2.

Definition AsIs : Z := 0.
Definition IPIfNonMatch : Z := 1.
Definition IPOnDemand : Z := 2.

(** [v2router.Domain_Type], a protobuf enum; a value outside the four
    declared ones reaches the [default] branch of [matchDomain]. *)
Inductive Domain_Type : Type :=
| Domain_Plain
| Domain_Regex
| Domain_Domain
| Domain_Full
| Domain_Other (n : Z).

(** [v2router.Domain]; of an attribute only the key is read *)
Record Domain : Type := {
  Type_ : Domain_Type;
  Value : string;
  Attribute : list string
}.

(** [v2router.CIDR]: address bytes and a [uint32] prefix length *)
Record CIDR : Type := {
  Ip : GoNet.IP;
  Prefix : Z
}.

(** [tunnel.AddressType] and [tunnel.Address] *)
Inductive AddressType_t : Type := IPv4 | DomainName_t | IPv6.

Record Address : Type := {
  AddressType : AddressType_t;
  DomainName : string;
  Port : Z;
  IP : GoNet.IP
}.

(** A [[3][]T] array indexed by policy *)
Record Arr3 (A : Type) : Type := { at0 : list A; at1 : list A; at2 : list A }.
Arguments at0 {A} _.
Arguments at1 {A} _.
Arguments at2 {A} _.

Definition empty3 {A} : Arr3 A := {| at0 := []; at1 := []; at2 := [] |}.

(** [arr[i]]; every index in the code is one of Block, Bypass, Proxy *)
Definition idx3 {A} (arr : Arr3 A) (i : Z) : list A :=
  if i =? 0 then at0 arr
  else if i =? 1 then at1 arr
  else if i =? 2 then at2 arr
  else [].

(** [arr[i] = append(arr[i], l...)] *)
Definition app3 {A} (arr : Arr3 A) (i : Z) (l : list A) : Arr3 A :=
  if i =? 0 then {| at0 := at0 arr ++ l; at1 := at1 arr; at2 := at2 arr |}
  else if i =? 1 then {| at0 := at0 arr; at1 := at1 arr ++ l; at2 := at2 arr |}
  else if i =? 2 then {| at0 := at0 arr; at1 := at1 arr; at2 := at2 arr ++ l |}
  else arr.

(** An established connection, named by what was dialled *)
Definition Conn : Type := string.

(** A [tunnel.Client] as far as the router uses it: its [DialConn] *)
Definition Dialer : Type := Address -> result Conn.

Record Client : Type := {
  domains : Arr3 Domain;
  cidrs : Arr3 CIDR;
  defaultPolicy : Z;
  domainStrategy : Z;
  underlay : Dialer;
  direct : Dialer
}.

(** [Config.Router] *)
Record Config : Type := {
  Router_Proxy : list string;
  Router_Bypass : list string;
  Router_Block : list string;
  Router_DefaultPolicy : string;
  Router_DomainStrategy : string;
  Router_GeoIPFilename : string;
  Router_GeoSiteFilename : string
}.

(** What the router calls outside this file: the Go standard library,
    the resolver behind [Address.ResolveIP], the geodata loader and the
    constructor of the direct dialer. *)
Record Runtime : Type := {
  (** [regexp.Compile]: the compiled matcher, [None] for an error *)
  regexp_Compile : string -> option (string -> bool);
  strings_ToLower : string -> string;
  strings_EqualFold : string -> string -> bool;
  net_ParseIP : string -> option GoNet.IP;
  (** [strconv.ParseInt(s, 10, 32)] *)
  strconv_ParseInt : string -> option Z;
  (** [address.ResolveIP()] *)
  ResolveIP : Address -> option GoNet.IP;
  (** [geodataLoader.LoadIP(file, code)] *)
  LoadIP : string -> string -> option (list CIDR);
  (** [geodataLoader.LoadSite(file, code)] *)
  LoadSite : string -> string -> option (list Domain);
  (** [freedom.NewClient(ctx, nil)] *)
  freedom_NewClient : result Dialer
}.

Section WithRuntime.

Variable R : Runtime.

(** [regexp.Match(pattern, b)]: compile, then match; [None] is the
    compile error *)
Definition regexp_Match (pattern target : string) : option bool :=
  match regexp_Compile R pattern with
  | None => None
  | Some re => Some (re target)
  end.

(** *** matchDomain *)

Fixpoint matchDomain (list : list Domain) (target : string) : bool :=
  match list with
  | [] => false
  | d :: rest =>
      match Type_ d with
      | Domain_Full =>
          let domain := Value d in
          if String.eqb domain target then true
          else matchDomain rest target
      | Domain_Domain =>
          let domain := Value d in
          if GoStrings.HasSuffix target domain then
            let idx := GoStrings.Index target domain in
            if (idx =? 0) || GoStrings.byte_is target (idx - 1) "."
            then true
            else matchDomain rest target
          else matchDomain rest target
      | Domain_Plain =>
          if GoStrings.Contains target (Value d) then true
          else matchDomain rest target
      | Domain_Regex =>
          match regexp_Match (Value d) target with
          | None => false
          | Some true => true
          | Some false => matchDomain rest target
          end
      | Domain_Other _ => matchDomain rest target
      end
  end.

(** *** matchIP *)

Fixpoint matchIP_loop (len : Z) (isIPv6 : bool)
         (list : list CIDR) (target : GoNet.IP) : bool :=
  match list with
  | [] => false
  | c :: rest =>
      let n := Prefix c in
      let mask := GoNet.CIDRMask n (8 * len) in
      let cidrIP := Ip c in
      let skip :=
        match GoNet.To4 cidrIP with
        | Some _ => isIPv6
        | None => negb isIPv6
        end in
      if skip then matchIP_loop len isIPv6 rest target
      else
        let subnet := {| GoNet.IPNet_IP := GoNet.Mask cidrIP mask;
                         GoNet.IPNet_Mask := mask |} in
        if GoNet.Contains subnet target then true
        else matchIP_loop len isIPv6 rest target
  end.

Definition matchIP (list : list CIDR) (target : GoNet.IP) : bool :=
  match GoNet.To4 target with
  | Some _ => matchIP_loop GoNet.IPv4len false list target
  | None => matchIP_loop GoNet.IPv6len true list target
  end.

(** *** newIPAddress *)

Definition newIPAddress (address : Address) : result Address :=
  match ResolveIP R address with
  | None => Err "router failed to resolve ip"
  | Some ip =>
      Ok {| AddressType :=
              match GoNet.To4 ip with Some _ => IPv4 | None => IPv6 end;
            DomainName := "";
            Port := Port address;
            IP := ip |}
  end.

(** *** Route *)

(** [for i := Block; i <= Proxy; i++ { if m(i) { return i } }]:
    the [i] returned, or [None] when the loop falls through *)
Definition firstPolicy (m : Z -> bool) : option Z :=
  List.find m [Block; Bypass; Proxy].

Definition routeByIP (c : Client) (ip : GoNet.IP) : option Z :=
  firstPolicy (fun i => matchIP (idx3 (cidrs c) i) ip).

Definition routeByDomain (c : Client) (name : string) : option Z :=
  firstPolicy (fun i => matchDomain (idx3 (domains c) i) name).

(** The [if c.domainStrategy == s { resolve; match CIDR lists }] block *)
Definition routeResolved (c : Client) (s : Z) (address : Address)
  : option Z :=
  if domainStrategy c =? s then
    match newIPAddress address with
    | Ok resolvedIP => routeByIP c (IP resolvedIP)
    | Err _ => None
    end
  else None.

Definition Route (c : Client) (address : Address) : Z :=
  match AddressType address with
  | DomainName_t =>
      match routeResolved c IPOnDemand address with
      | Some i => i
      | None =>
          match routeByDomain c (DomainName address) with
          | Some i => i
          | None =>
              match routeResolved c IPIfNonMatch address with
              | Some i => i
              | None => defaultPolicy c
              end
          end
      end
  | _ =>
      match routeByIP c (IP address) with
      | Some i => i
      | None => defaultPolicy c
      end
  end.

(** *** DialConn *)

(** The calls that [DialConn] makes to the two dialers, in order *)
Inductive DialEvent : Type :=
| UnderlayDial (a : Address)
| DirectDial (a : Address).

Inductive DialOutcome : Type :=
| Returned (r : result Conn)
| Panicked (msg : string).

(** [address.String()] is not read by any statement below *)
Definition Address_String (a : Address) : string := DomainName a.

Definition DialConn (c : Client) (address : Address)
  : list DialEvent * DialOutcome :=
  let policy := Route c address in
  if policy =? Proxy then
    ([UnderlayDial address], Returned (underlay c address))
  else if policy =? Block then
    ([], Returned (Err ("router blocked address: "
                          ++ Address_String address)))
  else if policy =? Bypass then
    match direct c address with
    | Err _ => ([DirectDial address], Returned (Err "router dial error"))
    | Ok conn => ([DirectDial address], Returned (Ok conn))
    end
  else ([], Panicked "unknown policy").

(** *** loadCode *)

Record codeInfo : Type := { code : string; strategy : Z }.

(** One of the three loops of [loadCode], over one rule list *)
Fixpoint loadCodeFrom (prefix : string) (strat : Z) (rules : list string)
  : list codeInfo :=
  match rules with
  | [] => []
  | s :: rest =>
      if GoStrings.HasPrefix s prefix then
        let left := GoStrings.drop (String.length prefix) s in
        if 0 <? GoStrings.len left
        then {| code := left; strategy := strat |}
               :: loadCodeFrom prefix strat rest
        else loadCodeFrom prefix strat rest
      else loadCodeFrom prefix strat rest
  end.

Definition loadCode (cfg : Config) (prefix : string) : list codeInfo :=
  loadCodeFrom prefix Proxy (Router_Proxy cfg)
    ++ loadCodeFrom prefix Bypass (Router_Bypass cfg)
    ++ loadCodeFrom prefix Block (Router_Block cfg).

(** *** NewClient *)

Definition bind {A B} (r : result A) (k : A -> result B) : result B :=
  match r with
  | Ok a => k a
  | Err e => Err e
  end.

Notation "x <- e ;; k" := (bind e (fun x => k))
  (at level 61, e at next level, right associativity).

Definition strIn (s : string) (l : list string) : bool :=
  existsb (String.eqb s) l.

Definition parseDomainStrategy (s : string) : option Z :=
  if strIn s ["as_is"; "as-is"; "asis"] then Some AsIs
  else if strIn s ["ip_if_non_match"; "ip-if-non-match"; "ipifnonmatch"]
  then Some IPIfNonMatch
  else if strIn s ["ip_on_demand"; "ip-on-demand"; "ipondemand"]
  then Some IPOnDemand
  else None.

Definition parseDefaultPolicy (s : string) : option Z :=
  if String.eqb s "proxy" then Some Proxy
  else if String.eqb s "bypass" then Some Bypass
  else if String.eqb s "block" then Some Block
  else None.

(** The [geoip:] loop: a failed load is logged and skipped *)
Definition loadGeoIP (cfg : Config) (ipCode : list codeInfo)
           (cidrs0 : Arr3 CIDR) : Arr3 CIDR :=
  fold_left
    (fun acc c =>
       match LoadIP R (Router_GeoIPFilename cfg) (code c) with
       | None => acc
       | Some l => app3 acc (strategy c) l
       end)
    ipCode cidrs0.

(** The domains of [domainList] to append when an attribute is wanted:
    one copy per attribute whose key folds to [attrWanted] *)
Definition withAttribute (attrWanted : string) (domainList : list Domain)
  : list Domain :=
  flat_map
    (fun domain =>
       flat_map
         (fun key =>
            if strings_EqualFold R attrWanted key then [domain] else [])
         (Attribute domain))
    domainList.

(** The split of a [geosite:] code at its first '@'; [None] is the
    [continue] of the two invalid shapes *)
Definition splitSiteCode (c : string) : option (string * string) :=
  let attrIdx := GoStrings.Index c "@" in
  if 0 <? attrIdx then
    if negb (GoStrings.HasSuffix c "@")
    then Some (String.substring 0 (Z.to_nat attrIdx) c,
               GoStrings.drop (Z.to_nat (attrIdx + 1)) c)
    else None
  else if attrIdx =? 0 then None
  else Some (c, "").

Definition loadGeoSite (cfg : Config) (siteCode : list codeInfo)
           (domains0 : Arr3 Domain) : Arr3 Domain :=
  fold_left
    (fun acc c =>
       match splitSiteCode (code c) with
       | None => acc
       | Some (code', attrWanted) =>
           match LoadSite R (Router_GeoSiteFilename cfg) code' with
           | None => acc
           | Some domainList =>
               if negb (String.eqb attrWanted "")
               then app3 acc (strategy c)
                         (withAttribute attrWanted domainList)
               else app3 acc (strategy c) domainList
           end
       end)
    siteCode domains0.

(** The [domain:], [keyword:] and [full:] loops *)
Definition addLowered (ty : Domain_Type) (infos : list codeInfo)
           (domains0 : Arr3 Domain) : Arr3 Domain :=
  fold_left
    (fun acc info =>
       app3 acc (strategy info)
            [{| Type_ := ty;
                Value := strings_ToLower R (code info);
                Attribute := [] |}])
    infos domains0.

(** The [regex:] and [regexp:] loops: the first pattern that does not
    compile ends [NewClient] with an error *)
Fixpoint addRegex (infos : list codeInfo) (domains0 : Arr3 Domain)
  : result (Arr3 Domain) :=
  match infos with
  | [] => Ok domains0
  | info :: rest =>
      match regexp_Compile R (code info) with
      | None => Err ("invalid regular expression: " ++ code info)
      | Some _ =>
          addRegex rest
            (app3 domains0 (strategy info)
                  [{| Type_ := Domain_Regex;
                      Value := code info;
                      Attribute := [] |}])
      end
  end.

(** [uint32(prefix)] of an [int64] *)
Definition to_uint32 (x : Z) : Z := x mod 2 ^ 32.

(** The [cidr:] loop *)
Fixpoint addCIDR (infos : list codeInfo) (cidrs0 : Arr3 CIDR)
  : result (Arr3 CIDR) :=
  match infos with
  | [] => Ok cidrs0
  | info :: rest =>
      match GoStrings.SplitByte "/" (code info) with
      | [t0; t1] =>
          match net_ParseIP R t0 with
          | None => Err ("invalid cidr ip: " ++ code info)
          | Some ip =>
              match strconv_ParseInt R t1 with
              | None => Err "invalid prefix"
              | Some prefix =>
                  addCIDR rest
                    (app3 cidrs0 (strategy info)
                          [{| Ip := ip; Prefix := to_uint32 prefix |}])
              end
          end
      | _ => Err ("invalid cidr: " ++ code info)
      end
  end.

Definition NewClient (cfg : Config) (underlay0 : Dialer) : result Client :=
  direct0 <- match freedom_NewClient R with
             | Ok d => Ok d
             | Err _ => Err "router failed to initialize raw client"
             end ;;
  strategy0 <- match parseDomainStrategy
                       (strings_ToLower R (Router_DomainStrategy cfg)) with
               | Some s => Ok s
               | None => Err ("unknown strategy: "
                                ++ Router_DomainStrategy cfg)
               end ;;
  policy0 <- match parseDefaultPolicy
                     (strings_ToLower R (Router_DefaultPolicy cfg)) with
             | Some p => Ok p
             | None => Err ("unknown strategy: "
                              ++ Router_DomainStrategy cfg)
             end ;;
  let cidrs1 := loadGeoIP cfg (loadCode cfg "geoip:") empty3 in
  let domains1 := loadGeoSite cfg (loadCode cfg "geosite:") empty3 in
  let domains2 := addLowered Domain_Domain (loadCode cfg "domain:") domains1 in
  let domains3 := addLowered Domain_Plain (loadCode cfg "keyword:") domains2 in
  domains4 <- addRegex (loadCode cfg "regex:") domains3 ;;
  domains5 <- addRegex (loadCode cfg "regexp:") domains4 ;;
  let domains6 := addLowered Domain_Full (loadCode cfg "full:") domains5 in
  cidrs2 <- addCIDR (loadCode cfg "cidr:") cidrs1 ;;
  Ok {| domains := domains6;
        cidrs := cidrs2;
        defaultPolicy := policy0;
        domainStrategy := strategy0;
        underlay := underlay0;
        direct := direct0 |}.

End WithRuntime.

End Router.

(** ** Go's [crypto/sha256], the SHA-224 variant (FIPS 180-4) *)

Module Sha256.

Definition w32 (x : Z) : Z := x mod 2 ^ 32.

Definition add32 (x y : Z) : Z := w32 (x + y).

(** [bits.RotateLeft32(x, -n)] *)
Definition rotr (x n : Z) : Z :=
  Z.lor (Z.shiftr x n) (w32 (Z.shiftl x (32 - n))).

(** The round constants are "the first thirty-two bits of the fractional
    parts of the cube roots of the first sixty-four prime numbers"
    (FIPS 180-4, 4.2.2); the table [_K] holds them. *)

Definition isPrime (n : Z) : bool :=
forallb (fun d => negb (n mod Z.of_nat d =? 0)) (seq 2 (Z.to_nat n - 2)).

Definition primes64 : list Z :=
filter isPrime (map Z.of_nat (seq 2 310)).

(** The largest [r] in [[lo, hi)] with [r^3 <= n], by bisection *)
Fixpoint cubeRoot (fuel : nat) (lo hi n : Z) : Z :=
match fuel with
| O => lo
| S fuel' =>
    if hi - lo <=? 1 then lo
    else
      let mid := (lo + hi) / 2 in
      if mid * mid * mid <=? n then cubeRoot fuel' mid hi n
      else cubeRoot fuel' lo mid n
end.

Definition K : list Z :=
Eval vm_compute in
  map (fun p => w32 (cubeRoot 40 0 (2 ^ 36) (p * 2 ^ 96))) primes64.

(** The eight chaining words [h[0..7]] *)
Record digest : Type := {
  h0 : Z; h1 : Z; h2 : Z; h3 : Z; h4 : Z; h5 : Z; h6 : Z; h7 : Z
}.

(** [init0_224 .. init7_224] *)
Definition init224 : digest :=
  {| h0 := 0xc1059ed8; h1 := 0x367cd507; h2 := 0x3070dd17; h3 := 0xf70e5939;
     h4 := 0xffc00b31; h5 := 0x68581511; h6 := 0x64f98fa7; h7 := 0xbefa4fa4 |}.

(** Big-endian 32-bit words of a 64-byte block *)
Fixpoint wordsOf (n : nat) (p : list Z) : list Z :=
  match n with
  | O => []
  | S n' =>
      match p with
      | a :: b :: c :: d :: rest =>
          Z.lor (Z.lor (Z.shiftl a 24) (Z.shiftl b 16))
                (Z.lor (Z.shiftl c 8) d) :: wordsOf n' rest
      | _ => []
      end
  end.

Definition wAt (w : list Z) (i : nat) : Z := nth i w 0.

(** The message schedule: [w[i]] for [16 <= i < 64] *)
Fixpoint extend (n : nat) (w : list Z) : list Z :=
  match n with
  | O => w
  | S n' =>
      let i := List.length w in
      let v1 := wAt w (i - 2) in
      let t1 := Z.lxor (Z.lxor (rotr v1 17) (rotr v1 19)) (Z.shiftr v1 10) in
      let v2 := wAt w (i - 15) in
      let t2 := Z.lxor (Z.lxor (rotr v2 7) (rotr v2 18)) (Z.shiftr v2 3) in
      extend n' (w ++ [add32 (add32 (add32 t1 (wAt w (i - 7))) t2)
                             (wAt w (i - 16))])
  end.

(** One round of the compression function *)
Definition round (s : digest) (kw : Z * Z) : digest :=
  let '(k, w) := kw in
  let a := h0 s in let b := h1 s in let c := h2 s in let d := h3 s in
  let e := h4 s in let f := h5 s in let g := h6 s in let h := h7 s in
  let ch := Z.lxor (Z.land e f) (Z.land (Z.lxor e 0xffffffff) g) in
  let t1 := add32 (add32 (add32 (add32 h
               (Z.lxor (Z.lxor (rotr e 6) (rotr e 11)) (rotr e 25))) ch) k) w in
  let maj := Z.lxor (Z.lxor (Z.land a b) (Z.land a c)) (Z.land b c) in
  let t2 := add32 (Z.lxor (Z.lxor (rotr a 2) (rotr a 13)) (rotr a 22)) maj in
  {| h0 := add32 t1 t2; h1 := a; h2 := b; h3 := c;
     h4 := add32 d t1; h5 := e; h6 := f; h7 := g |}.

(** [block] on one 64-byte block *)
Definition block1 (s : digest) (p : list Z) : digest :=
  let w := extend 48 (wordsOf 16 p) in
  let t := fold_left round (combine K w) s in
  {| h0 := add32 (h0 s) (h0 t); h1 := add32 (h1 s) (h1 t);
     h2 := add32 (h2 s) (h2 t); h3 := add32 (h3 s) (h3 t);
     h4 := add32 (h4 s) (h4 t); h5 := add32 (h5 s) (h5 t);
     h6 := add32 (h6 s) (h6 t); h7 := add32 (h7 s) (h7 t) |}.

Fixpoint blocks (n : nat) (s : digest) (p : list Z) : digest :=
  match n with
  | O => s
  | S n' => blocks n' (block1 s (firstn 64 p)) (skipn 64 p)
  end.

(** The [i]-th byte from the top of a [w]-byte big-endian number *)
Definition beBytes (w : nat) (x : Z) : list Z :=
  map (fun i => Z.land (Z.shiftr x (8 * Z.of_nat (w - 1 - i))) 255) (seq 0 w).

(** The padding written by [checkSum]: 0x80, zeros up to 56 mod 64, and
    the bit length as a big-endian [uint64] *)
Definition padding (len : Z) : list Z :=
  let r := len mod 64 in
  let n := if r <? 56 then 56 - r else 64 + 56 - r in
  (128 :: repeat 0 (Z.to_nat (n - 1)))
    ++ beBytes 8 ((len * 8) mod 2 ^ 64).

(** [h := New224(); h.Write(data); h.Sum(nil)] *)
Definition Sum224 (data : list Z) : list Z :=
  let padded := (data ++ padding (Z.of_nat (List.length data)))%list in
  let s := blocks (List.length padded / 64) init224 padded in
  flat_map (beBytes 4) [h0 s; h1 s; h2 s; h3 s; h4 s; h5 s; h6 s].

End Sha256.

(** ** common: SHA224String *)

Module Common.

(** [[]byte(s)] *)
Fixpoint bytesOf (s : string) : list Z :=
  match s with
  | EmptyString => []
  | String c s' => Z.of_nat (nat_of_ascii c) :: bytesOf s'
  end.

Definition hexDigit (d : Z) : ascii :=
  match String.get (Z.to_nat d) "0123456789abcdef" with
  | Some c => c
  | None => "?"%char
  end.

(** The digits of [v] in base 16, most significant first, by repeated
    division; [fuel] bounds the number of digits *)
Fixpoint hexDigits (fuel : nat) (v : Z) (acc : string) : string :=
  match fuel with
  | O => acc
  | S fuel' =>
      let acc' := String (hexDigit (v mod 16)) acc in
      if v / 16 =? 0 then acc' else hexDigits fuel' (v / 16) acc'
  end.

(** [fmt.Sprintf("%02x", v)] for an unsigned [v]: lowercase hexadecimal,
    padded with zeros on the left to a width of at least 2 *)
Definition Sprintf_02x (v : Z) : string :=
  let digits := hexDigits (S (Z.to_nat (Z.log2 v))) v "" in
  if (String.length digits <? 2)%nat then String "0" digits else digits.

(** One of the characters [0-9a-f] *)
Definition isLowerHex (c : ascii) : bool :=
  let n := nat_of_ascii c in
  (((48 <=? n) && (n <=? 57)) || ((97 <=? n) && (n <=? 102)))%nat.

Fixpoint allLowerHex (s : string) : bool :=
  match s with
  | EmptyString => true
  | String c s' => isLowerHex c && allLowerHex s'
  end.

Definition SHA224String (password : string) : string :=
  let val := Sha256.Sum224 (bytesOf password) in
  fold_left (fun str v => (str ++ Sprintf_02x v)%string) val "".

End Common.

(** ** Go's [encoding/hex] *)

Module GoHex.

Definition hextable : string := "0123456789abcdef".

Definition tableAt (i : Z) : ascii :=
  match String.get (Z.to_nat i) hextable with
  | Some c => c
  | None => "?"%char
  end.

(** [hex.EncodeToString(src)]: [hextable[v>>4]], [hextable[v&0x0f]] for
    each byte *)
Fixpoint EncodeToString (src : list Z) : string :=
  match src with
  | [] => ""
  | v :: rest =>
      String (tableAt (Z.shiftr v 4))
             (String (tableAt (Z.land v 15)) (EncodeToString rest))
  end.

End GoHex.

(** ** Log records, for the functions whose logging is specified *)

Inductive LogRecord : Type :=
| LogDebug (msg : string)
| LogInfo (msg : string)
| LogWarn (msg : string)
| LogError (msg : string).

(** ** tunnel/tls/fingerprint: ParseCipher *)

Module Fingerprint.

(** [tls.CipherSuite], the two fields read *)
Record CipherSuite : Type := { ID : Z; Name : string }.

(** The inner loop [for _, q := range all] for one entry [p]; [found] is
    the local that the code declares as [true] and never assigns *)
Fixpoint scanSuites (all : list CipherSuite) (p : string) (found : bool)
         (acc : list Z * list LogRecord) : list Z * list LogRecord :=
  match all with
  | [] => acc
  | q :: rest =>
      if String.eqb (Name q) p then ((fst acc ++ [ID q])%list, snd acc)
      else
        let acc' :=
          if negb found
          then (fst acc, (snd acc ++ [LogWarn "invalid cipher suite"])%list)
          else acc in
        scanSuites rest p found acc'
  end.

(** [ParseCipher(s)] with [all := tls.CipherSuites()]: the result and
    the records logged *)
Definition ParseCipher (all : list CipherSuite) (s : list string)
  : list Z * list LogRecord :=
  fold_left (fun acc p => scanSuites all p true acc) s ([], []).

(** The same, said in one pass: for each entry in input order, the
    ID of the suite that bears that name, if there is one *)
Definition idsOfNamed (all : list CipherSuite) (s : list string) : list Z :=
  flat_map
    (fun p =>
       match List.find (fun q => String.eqb (Name q) p) all with
       | Some q => [ID q]
       | None => []
       end)
    s.

(** [tls.CipherSuites()] of Go 1.21, for the examples *)
Definition goCipherSuites : list CipherSuite :=
  [ {| ID := 0x002f; Name := "TLS_RSA_WITH_AES_128_CBC_SHA" |};
    {| ID := 0x0035; Name := "TLS_RSA_WITH_AES_256_CBC_SHA" |};
    {| ID := 0x009c; Name := "TLS_RSA_WITH_AES_128_GCM_SHA256" |};
    {| ID := 0x009d; Name := "TLS_RSA_WITH_AES_256_GCM_SHA384" |};
    {| ID := 0x1301; Name := "TLS_AES_128_GCM_SHA256" |};
    {| ID := 0x1302; Name := "TLS_AES_256_GCM_SHA384" |};
    {| ID := 0x1303; Name := "TLS_CHACHA20_POLY1305_SHA256" |};
    {| ID := 0xc009; Name := "TLS_ECDHE_ECDSA_WITH_AES_128_CBC_SHA" |};
    {| ID := 0xc00a; Name := "TLS_ECDHE_ECDSA_WITH_AES_256_CBC_SHA" |};
    {| ID := 0xc013; Name := "TLS_ECDHE_RSA_WITH_AES_128_CBC_SHA" |};
    {| ID := 0xc014; Name := "TLS_ECDHE_RSA_WITH_AES_256_CBC_SHA" |};
    {| ID := 0xc02b; Name := "TLS_ECDHE_ECDSA_WITH_AES_128_GCM_SHA256" |};
    {| ID := 0xc02c; Name := "TLS_ECDHE_ECDSA_WITH_AES_256_GCM_SHA384" |};
    {| ID := 0xc02f; Name := "TLS_ECDHE_RSA_WITH_AES_128_GCM_SHA256" |};
    {| ID := 0xc030; Name := "TLS_ECDHE_RSA_WITH_AES_256_GCM_SHA384" |};
    {| ID := 0xcca8; Name := "TLS_ECDHE_RSA_WITH_CHACHA20_POLY1305_SHA256" |};
    {| ID := 0xcca9; Name := "TLS_ECDHE_ECDSA_WITH_CHACHA20_POLY1305_SHA256" |} ].

End Fingerprint.

(** ** tunnel/tls/client.go: NewClient *)

Module TLS.

(** [Config.TLS], the fields that [NewClient] reads *)
Record TLSConfig : Type := {
  Verify : bool;
  SNI : string;
  Cipher : string;
  ReuseSession : bool;
  Fingerprint_ : string;
  CertPath : string
}.

Record Config : Type := {
  RemoteHost : string;
  TLS_ : TLSConfig
}.

(** [utls.ClientHelloID]: the zero value and the three profiles *)
Inductive ClientHelloID : Type :=
| HelloZero
| HelloFirefox_Auto
| HelloChrome_Auto
| HelloIOS_Auto.

(** The fields of [Client] that [NewClient] sets; [ca] holds the PEM
    bytes handed to the certificate pool, [None] for a nil pool *)
Record Client : Type := {
  verify : bool;
  sni : string;
  ca : option string;
  cipher : list Z;
  sessionTicket : bool;
  fingerprint : string;
  helloID : ClientHelloID
}.

Section WithFiles.

(** [ioutil.ReadFile]: the contents, [None] for an error *)
Variable ReadFile : string -> option string.
(** [tls.CipherSuites()] *)
Variable CipherSuites : list Fingerprint.CipherSuite.

Definition parseFingerprint (f : string) : result ClientHelloID :=
  if String.eqb f "" then Ok HelloZero
  else if String.eqb f "firefox" then Ok HelloFirefox_Auto
  else if String.eqb f "chrome" then Ok HelloChrome_Auto
  else if String.eqb f "ios" then Ok HelloIOS_Auto
  else Err ("invalid fingerprint " ++ f).

(** [if cfg.TLS.SNI == "" { cfg.TLS.SNI = cfg.RemoteHost }]: the
    configuration is shared, so the write is part of the result *)
Definition defaultSNI (cfg : Config) : Config :=
  if String.eqb (SNI (TLS_ cfg)) "" then
    {| RemoteHost := RemoteHost cfg;
       TLS_ := {| Verify := Verify (TLS_ cfg);
                  SNI := RemoteHost cfg;
                  Cipher := Cipher (TLS_ cfg);
                  ReuseSession := ReuseSession (TLS_ cfg);
                  Fingerprint_ := Fingerprint_ (TLS_ cfg);
                  CertPath := CertPath (TLS_ cfg) |} |}
  else cfg.

(** [NewClient]: the configuration as left behind, and the client or
    the error *)
Definition NewClient (cfg0 : Config) : Config * result Client :=
  match parseFingerprint (Fingerprint_ (TLS_ cfg0)) with
  | Err e => (cfg0, Err e)
  | Ok hello =>
      let cfg := defaultSNI cfg0 in
      let client (pool : option string) :=
        {| verify := Verify (TLS_ cfg);
           sni := SNI (TLS_ cfg);
           ca := pool;
           cipher :=
             fst (Fingerprint.ParseCipher CipherSuites
                    (GoStrings.SplitByte ":" (Cipher (TLS_ cfg))));
           sessionTicket := ReuseSession (TLS_ cfg);
           fingerprint := Fingerprint_ (TLS_ cfg);
           helloID := hello |} in
      if negb (String.eqb (CertPath (TLS_ cfg)) "") then
        match ReadFile (CertPath (TLS_ cfg)) with
        | None => (cfg, Err "failed to load cert file")
        | Some caCertByte => (cfg, Ok (client (Some caCertByte)))
        end
      else (cfg, Ok (client None))
  end.

End WithFiles.

End TLS.

(** ** log/slog levels *)

Module Slog.

Definition LevelDebug : Z := -4.
Definition LevelInfo : Z := 0.
Definition LevelWarn : Z := 4.
Definition LevelError : Z := 8.

(** A handler with minimum level [minLevel] emits a record of level [l]
    iff [l >= minLevel] *)
Definition Enabled (minLevel l : Z) : bool := minLevel <=? l.

End Slog.

(** ** proxy/proxy.go: logLevelFromConfig *)

Module ProxyLog.

Definition logLevelFromConfig (level : Z) : Z :=
  if level =? 0 then Slog.LevelDebug
  else if level =? 1 then Slog.LevelInfo
  else if level =? 2 then Slog.LevelWarn
  else if level =? 3 then Slog.LevelError
  else if level =? 4 then Slog.LevelError
  else if level =? 5 then 1000
  else Slog.LevelInfo.

End ProxyLog.

(** ** log: LogLevel, and log/slogadapter: levels and FallbackWriter *)

Module Log.

Definition AllLevel : Z := 0.
Definition InfoLevel : Z := 1.
Definition WarnLevel : Z := 2.
Definition ErrorLevel : Z := 3.
Definition FatalLevel : Z := 4.
Definition OffLevel : Z := 5.

End Log.

Module Slogadapter.

Definition LevelTrace : Z := -8.
Definition LevelFatal : Z := 12.

Definition mapLogLevelToSlog (level : Z) : Z :=
  if level =? Log.AllLevel then LevelTrace
  else if level =? Log.InfoLevel then Slog.LevelInfo
  else if level =? Log.WarnLevel then Slog.LevelWarn
  else if level =? Log.ErrorLevel then Slog.LevelError
  else if level =? Log.FatalLevel then LevelFatal
  else if level =? Log.OffLevel then 100
  else Slog.LevelInfo.

(** An [io.Writer] value is nil or refers to a writer; two interface
    values are equal iff they refer to the same writer *)
Definition WriterRef : Type := nat.

Definition Stderr : WriterRef := 2%nat.

(** A non-nil [ErrorHandler] value, likewise; the unexported field
    [errorHandler] is only ever set by [NewFallbackWriter], which
    replaces nil by the default handler *)
Definition HandlerRef : Type := nat.

Definition DefaultErrorHandler : HandlerRef := 0%nat.

Record FallbackWriter : Type := {
  primary : option WriterRef;
  fallback : option WriterRef;
  errorHandler : HandlerRef
}.

Definition NewFallbackWriter (primary0 fallback0 : option WriterRef)
           (errorHandler0 : option HandlerRef) : FallbackWriter :=
  let errorHandler1 :=
    match errorHandler0 with
    | None => DefaultErrorHandler
    | Some h => h
    end in
  let fallback1 :=
    match fallback0 with
    | None => Some Stderr
    | Some w => Some w
    end in
  {| primary := primary0; fallback := fallback1; errorHandler := errorHandler1 |}.

Definition SetPrimary (fw : FallbackWriter) (w : option WriterRef)
  : FallbackWriter :=
  {| primary := w; fallback := fallback fw; errorHandler := errorHandler fw |}.

Definition SetFallback (fw : FallbackWriter) (w : option WriterRef)
  : FallbackWriter :=
  {| primary := primary fw; fallback := w; errorHandler := errorHandler fw |}.

(** What a call of [Write] does to the outside, in order *)
Inductive WriteEvent : Type :=
| WriteCall (w : WriterRef) (p : list Z)
| HandleError (h : HandlerRef) (err : string) (context : string).

Definition sameWriter (a b : option WriterRef) : bool :=
  match a, b with
  | Some x, Some y => Nat.eqb x y
  | None, None => true
  | _, _ => false
  end.

Section WithWriters.

(** [w.Write(p)] of the underlying writers: [(n, err)], [None] for a
    nil error *)
Variable underlying : WriterRef -> list Z -> Z * option string.

(** [fw.Write(p)]: the events, then [(n, err)] *)
Definition Write (fw : FallbackWriter) (p : list Z)
  : list WriteEvent * (Z * option string) :=
  let tryFallback (before : list WriteEvent) :=
    match fallback fw with
    | Some f =>
        if negb (sameWriter (fallback fw) (primary fw)) then
          match underlying f p with
          | (n, None) => ((before ++ [WriteCall f p])%list, (n, None))
          | (_, Some err) =>
              ((before ++ [WriteCall f p;
                           HandleError (errorHandler fw) err
                                       "fallback writer failed"])%list,
               (GoNet.len p, None))
          end
        else (before, (GoNet.len p, None))
    | None => (before, (GoNet.len p, None))
    end in
  match primary fw with
  | Some w =>
      match underlying w p with
      | (n, None) => ([WriteCall w p], (n, None))
      | (_, Some err) =>
          tryFallback [WriteCall w p;
                       HandleError (errorHandler fw) err
                                   "primary writer failed"]
      end
  | None => tryFallback []
  end.

End WithWriters.

End Slogadapter.

(** ** redirector *)

Module Redirector.

(** A [net.Conn] and a [net.Addr], by name *)
Definition ConnRef : Type := nat.
Definition Addr : Type := string.

(** [Redirection]; a nil interface value or function is [None] *)
Record Redirection : Type := {
  Dial : option (Addr -> option ConnRef);
  RedirectTo : option Addr;
  InboundConn : option ConnRef
}.

(** [Redirector]: whether [ctx.Done()] is closed, and the buffered
    channel as its pending elements (oldest first) and its capacity *)
Record Redirector : Type := {
  ctxDone : bool;
  redirectionChan : list Redirection;
  chanCap : Z
}.

Inductive Event : Type :=
| Log (r : LogRecord)
| CloseConn (c : ConnRef).

(** [NewRedirector(ctx)]: [make(chan *Redirection, 64)] *)
Definition NewRedirector (done : bool) : Redirector :=
  {| ctxDone := done; redirectionChan := []; chanCap := 64 |}.

(** A call either returns, in a new state and after some events, or
    stays blocked in its [select] *)
Inductive Outcome : Type :=
| Returns (r : Redirector) (events : list Event)
| Blocks.

Definition canSend (r : Redirector) : bool :=
  GoNet.len (redirectionChan r) <? chanCap r.

(** [r.Redirect(redirection)]: a [select] over the send and
    [ctx.Done()], with no [default]; when both are ready the runtime
    picks one, here by [pickSend] *)
Definition Redirect (pickSend : bool) (r : Redirector)
           (redirection : Redirection) : Outcome :=
  let send :=
    Returns {| ctxDone := ctxDone r;
               redirectionChan := (redirectionChan r ++ [redirection])%list;
               chanCap := chanCap r |}
            [Log (LogDebug "redirect request")] in
  let exiting := Returns r [Log (LogDebug "redirector exiting")] in
  match canSend r, ctxDone r with
  | true, true => if pickSend then send else exiting
  | true, false => send
  | false, true => exiting
  | false, false => Blocks
  end.

(** One turn of the worker's loop: receive the oldest element *)
Definition workerReceive (r : Redirector)
  : option (Redirection * Redirector) :=
  match redirectionChan r with
  | [] => None
  | x :: rest =>
      Some (x, {| ctxDone := ctxDone r;
                  redirectionChan := rest;
                  chanCap := chanCap r |})
  end.

(** [n] calls of [Redirect] with the same request, one after another *)
Fixpoint fill (n : nat) (r : Redirector) (redirection : Redirection)
  : Redirector :=
  match n with
  | O => r
  | S n' =>
      match Redirect true r redirection with
      | Returns r' _ => fill n' r' redirection
      | Blocks => r
      end
  end.

(** The specification's reading of a full queue, which drops the new
    inbound connection: the call returns, having closed it *)
Definition dropsInbound (r : Redirector) (redirection : Redirection)
  : Prop :=
  forall pickSend, exists r' events c,
    InboundConn redirection = Some c
    /\ Redirect pickSend r redirection = Returns r' events
    /\ In (CloseConn c) events.

Definition sampleRedirection : Redirection :=
  {| Dial := None; RedirectTo := Some "127.0.0.1:80"; InboundConn := Some 7%nat |}.

End Redirector.

(** ** The router's rule matching, as the specification words it *)

Module RouterSpec.

Import Router.

(** "Full-match equals target; Domain-match is a suffix match anchored on
    a dot or full length; Keyword match is substring; Regex match is a
    compiled pattern." *)
Definition ruleMatches (R : Runtime) (target : string) (d : Domain) : bool :=
  match Type_ d with
  | Domain_Full => String.eqb (Value d) target
  | Domain_Domain =>
      GoStrings.HasSuffix target (Value d)
      && ((GoStrings.len target =? GoStrings.len (Value d))
          || GoStrings.byte_is target
               (GoStrings.len target - GoStrings.len (Value d) - 1) ".")
  | Domain_Plain => GoStrings.Contains target (Value d)
  | Domain_Regex =>
      match regexp_Compile R (Value d) with
      | Some re => re target
      | None => false
      end
  | Domain_Other _ => false
  end.







End RouterSpec.

(** ** An instance of the runtime, for the examples *)

Module Sample.

Import Router.

Definition lowerByte (c : ascii) : ascii :=
  let n := nat_of_ascii c in
  if ((65 <=? n) && (n <=? 90))%nat then ascii_of_nat (n + 32) else c.

(** [strings.ToLower] on ASCII strings *)
Fixpoint ToLower (s : string) : string :=
  match s with
  | EmptyString => EmptyString
  | String c s' => String (lowerByte c) (ToLower s')
  end.

(** [strings.EqualFold] on ASCII strings *)
Definition EqualFold (a b : string) : bool :=
  String.eqb (ToLower a) (ToLower b).

Definition isWordByte (c : ascii) : bool :=
  let n := nat_of_ascii c in
  (((48 <=? n) && (n <=? 57)) || ((65 <=? n) && (n <=? 90))
   || ((97 <=? n) && (n <=? 122)) || (n =? 45) || (n =? 95))%nat.

Fixpoint allBytes (f : ascii -> bool) (s : string) : bool :=
  match s with
  | EmptyString => true
  | String c s' => f c && allBytes f s'
  end.

(** A stand-in for [regexp.Compile] that knows the literal patterns
    only: a pattern of letters, digits, '-' and '_' compiles to the
    search for itself; every other pattern is reported as an error, as
    Go reports the unbalanced "(" of the examples. *)
Definition Compile (pattern : string) : option (string -> bool) :=
  if allBytes isWordByte pattern
  then Some (fun target => GoStrings.Contains target pattern)
  else None.

Definition digitOf (c : ascii) : option Z :=
  let n := nat_of_ascii c in
  if ((48 <=? n) && (n <=? 57))%nat then Some (Z.of_nat n - 48) else None.

Fixpoint parseDigits (s : string) (acc : Z) : option Z :=
  match s with
  | EmptyString => Some acc
  | String c s' =>
      match digitOf c with
      | Some d => parseDigits s' (10 * acc + d)
      | None => None
      end
  end.

Definition parseUint (s : string) : option Z :=
  match s with
  | EmptyString => None
  | _ => parseDigits s 0
  end.

(** [strconv.ParseInt(s, 10, 32)]: an optional sign, decimal digits, and
    an error outside the [int32] range *)
Definition ParseInt32 (s : string) : option Z :=
  let signed :=
    match s with
    | String "-" s' => option_map Z.opp (parseUint s')
    | String "+" s' => parseUint s'
    | _ => parseUint s
    end in
  match signed with
  | Some v => if (- 2 ^ 31 <=? v) && (v <? 2 ^ 31) then Some v else None
  | None => None
  end.

(** [net.ParseIP] on dotted-quad text: the 16-byte form of the address *)
Definition ParseIPv4 (s : string) : option GoNet.IP :=
  match map parseUint (GoStrings.SplitByte "." s) with
  | [Some a; Some b; Some c; Some d] =>
      if (a <=? 255) && (b <=? 255) && (c <=? 255) && (d <=? 255)
      then Some (GoNet.v4InV6Prefix ++ [a; b; c; d])%list
      else None
  | _ => None
  end.

(** A resolver that knows three names *)
Definition hosts : list (string * GoNet.IP) :=
  [ ("x.bad.example", [10; 1; 2; 3]);
    ("api.corp.lan", [192; 168; 0; 7]);
    ("www.example.com", [93; 184; 216; 34]) ].

Fixpoint lookup (name : string) (table : list (string * GoNet.IP))
  : option GoNet.IP :=
  match table with
  | [] => None
  | (n, ip) :: rest => if String.eqb n name then Some ip else lookup name rest
  end.

(** [Address.ResolveIP]: an IP address is returned as it is, a name is
    looked up *)
Definition Resolve (a : Address) : option GoNet.IP :=
  match AddressType a with
  | DomainName_t => lookup (DomainName a) hosts
  | _ => Some (IP a)
  end.

Definition directDial : Dialer := fun a => Ok ("direct:" ++ DomainName a).
Definition proxyDial : Dialer := fun a => Ok ("proxy:" ++ DomainName a).

(** No geodata files are present: every load fails *)
Definition runtime : Runtime :=
  {| regexp_Compile := Compile;
     strings_ToLower := ToLower;
     strings_EqualFold := EqualFold;
     net_ParseIP := ParseIPv4;
     strconv_ParseInt := ParseInt32;
     ResolveIP := Resolve;
     LoadIP := fun _ _ => None;
     LoadSite := fun _ _ => None;
     freedom_NewClient := Ok directDial |}.

Definition domainAddr (name : string) (port : Z) : Address :=
  {| AddressType := DomainName_t; DomainName := name; Port := port; IP := [] |}.

(** The rule set of the specification's router example *)
Definition specConfig : Config :=
  {| Router_Proxy := ["domain:example.com"];
     Router_Bypass := ["domain:corp.lan"];
     Router_Block := ["domain:bad.example"];
     Router_DefaultPolicy := "proxy";
     Router_DomainStrategy := "as_is";
     Router_GeoIPFilename := "geoip.dat";
     Router_GeoSiteFilename := "geosite.dat" |}.

(** The client that [NewClient] builds from [specConfig] *)
Definition specClient : Client :=
  {| domains :=
       {| at0 := [{| Type_ := Domain_Domain; Value := "bad.example";
                     Attribute := [] |}];
          at1 := [{| Type_ := Domain_Domain; Value := "corp.lan";
                     Attribute := [] |}];
          at2 := [{| Type_ := Domain_Domain; Value := "example.com";
                     Attribute := [] |}] |};
     cidrs := empty3;
     defaultPolicy := Proxy;
     domainStrategy := AsIs;
     underlay := proxyDial;
     direct := directDial |}.

(** The same blocked domain, with the proxied network 10.0.0.0/8 and
    the strategy that resolves first *)
Definition onDemandConfig : Config :=
  {| Router_Proxy := ["cidr:10.0.0.0/8"];
     Router_Bypass := [];
     Router_Block := ["domain:bad.example"];
     Router_DefaultPolicy := "bypass";
     Router_DomainStrategy := "ip_on_demand";
     Router_GeoIPFilename := "geoip.dat";
     Router_GeoSiteFilename := "geosite.dat" |}.

Definition onDemandClient : Client :=
  {| domains :=
       {| at0 := [{| Type_ := Domain_Domain; Value := "bad.example";
                     Attribute := [] |}];
          at1 := [];
          at2 := [] |};
     cidrs :=
       {| at0 := [];
          at1 := [];
          at2 := [{| Ip := [0; 0; 0; 0; 0; 0; 0; 0; 0; 0; 255; 255; 10; 0; 0; 0];
                     Prefix := 8 |}] |};
     defaultPolicy := Bypass;
     domainStrategy := IPOnDemand;
     underlay := proxyDial;
     direct := directDial |}.

(** A rule whose pattern does not compile *)
Definition badRegexConfig : Config :=
  {| Router_Proxy := [];
     Router_Bypass := ["domain:corp.lan"];
     Router_Block := ["regexp:("];
     Router_DefaultPolicy := "proxy";
     Router_DomainStrategy := "as_is";
     Router_GeoIPFilename := "geoip.dat";
     Router_GeoSiteFilename := "geosite.dat" |}.

End Sample.

(** * Go's string functions: what they decide *)

Section StringFacts.

Import GoStrings.

Lemma append_nil_r (s : string) : (s ++ "")%string = s.
Proof. induction s; simpl; congruence. Qed.

Lemma append_assoc (a b c : string) :
  ((a ++ b) ++ c)%string = (a ++ (b ++ c))%string.
Proof. induction a; simpl; congruence. Qed.

Lemma length_append (a b : string) :
  String.length (a ++ b) = (String.length a + String.length b)%nat.
Proof. induction a; simpl; congruence. Qed.

Lemma prefix_app (p x : string) : String.prefix p (p ++ x) = true.
Proof.
  induction p as [| ch p IH]; simpl; [destruct x; reflexivity |].
  destruct (Ascii.ascii_dec ch ch); [exact IH | contradiction].
Qed.

(** [HasPrefix(s, p)] holds exactly when [s] is [p] followed by a rest *)
Lemma prefix_iff (p s : string) :
  String.prefix p s = true <-> exists rest, s = (p ++ rest)%string.
Proof.
  split.
  - revert s. induction p as [| ch p IH]; intros s H.
    + exists s. reflexivity.
    + destruct s as [| c s]; simpl in H; [discriminate |].
      destruct (Ascii.ascii_dec ch c) as [-> |]; [| discriminate].
      destruct (IH s H) as [rest ->]. exists rest. reflexivity.
  - intros [rest ->]. apply prefix_app.
Qed.

Lemma drop_app (p x : string) : drop (String.length p) (p ++ x) = x.
Proof.
  induction p as [| ch p IH]; simpl; [reflexivity | exact IH].
Qed.

Lemma take_drop (n : nat) (s : string) :
  (String.substring 0 n s ++ drop n s)%string = s.
Proof.
  revert s. induction n as [| n IH]; intros s.
  - destruct s; reflexivity.
  - destruct s as [| c s]; simpl; [reflexivity |]. rewrite IH. reflexivity.
Qed.

(** [HasSuffix(s, suffix)] holds exactly when [s] ends with [suffix] *)
Lemma HasSuffix_iff (s suffix : string) :
  HasSuffix s suffix = true <-> exists pre, s = (pre ++ suffix)%string.
Proof.
  unfold HasSuffix. split.
  - intros H. apply andb_true_iff in H. destruct H as [_ H].
    apply String.eqb_eq in H.
    exists (String.substring 0 (String.length s - String.length suffix) s).
    pose proof (take_drop (String.length s - String.length suffix) s) as T.
    rewrite H in T. symmetry. exact T.
  - intros [pre ->]. rewrite length_append.
    apply andb_true_iff. split; [apply Nat.leb_le; lia |].
    replace (String.length pre + String.length suffix
             - String.length suffix)%nat
      with (String.length pre) by lia.
    rewrite drop_app. apply String.eqb_refl.
Qed.

(** Every non-empty string has a last byte *)
Lemma snoc_cases (s : string) :
  s = "" \/ exists s' c, s = (s' ++ String c "")%string.
Proof.
  induction s as [| c s IH]; [left; reflexivity | right].
  destruct IH as [-> | [s' [c' ->]]].
  - exists "", c. reflexivity.
  - exists (String c s'), c'. reflexivity.
Qed.

Lemma get_after (pre : string) (c : ascii) (rest : string) :
  String.get (String.length pre) (pre ++ String c rest) = Some c.
Proof. induction pre as [| ch pre IH]; simpl; [reflexivity | exact IH]. Qed.

(** The byte before a suffix *)
Lemma byte_before_suffix (pre suffix : string) (c : ascii) :
  byte_is (pre ++ suffix) (len (pre ++ suffix) - len suffix - 1) c = true
  <-> exists pre', pre = (pre' ++ String c "")%string.
Proof.
  unfold byte_is, byte_at, len. rewrite length_append.
  destruct (snoc_cases pre) as [-> | [pre' [c' ->]]].
  - simpl String.length.
    destruct (Z.ltb_spec (Z.of_nat (0 + String.length suffix)
                          - Z.of_nat (String.length suffix) - 1) 0); [| lia].
    split; [discriminate |].
    intros [pre' Hp]. destruct pre'; discriminate Hp.
  - rewrite length_append. simpl String.length.
    destruct (Z.ltb_spec
                (Z.of_nat (String.length pre' + 1 + String.length suffix)
                 - Z.of_nat (String.length suffix) - 1) 0); [lia |].
    replace (Z.to_nat _) with (String.length pre') by lia.
    rewrite append_assoc. simpl append. rewrite get_after.
    split.
    + intros Hb. apply Ascii.eqb_eq in Hb. subst c'. exists pre'. reflexivity.
    + intros [p2 Hp].
      assert (E : c' = c).
      { clear - Hp. revert p2 Hp.
        induction pre' as [| a pre' IH]; intros p2 Hp.
        - destruct p2 as [| b p2]; simpl in Hp; [congruence |].
          destruct p2; discriminate Hp.
        - destruct p2 as [| b p2]; simpl in Hp.
          + destruct pre'; discriminate Hp.
          + injection Hp as _ Hp. eapply IH; exact Hp. }
      subst c'. apply Ascii.eqb_refl.
Qed.

(** A suffix "anchored on a dot or full length": the target is the rule
    itself or ends with a dot followed by the rule *)
Lemma anchored_suffix_iff (target rule : string) :
  HasSuffix target rule
  && ((len target =? len rule) || byte_is target (len target - len rule - 1) ".")
  = true
  <-> target = rule \/ exists pre, target = (pre ++ "." ++ rule)%string.
Proof.
  rewrite andb_true_iff, HasSuffix_iff, orb_true_iff. split.
  - intros [[pre ->] [H | H]].
    + left. apply Z.eqb_eq in H. unfold len in H. rewrite length_append in H.
      destruct pre; [reflexivity | simpl in H; lia].
    + right. apply byte_before_suffix in H. destruct H as [pre' ->].
      exists pre'. rewrite append_assoc. reflexivity.
  - intros [-> | [pre ->]].
    + split; [exists ""; reflexivity |]. left. apply Z.eqb_refl.
    + split; [exists (pre ++ "."); apply eq_sym, append_assoc |]. right.
      rewrite <- append_assoc. apply byte_before_suffix.
      exists pre. reflexivity.
Qed.

(** [IndexFrom] returns [-1] or an index from its offset on *)
Lemma IndexFrom_range (i : Z) (s substr : string) :
  IndexFrom i s substr = -1 \/ i <= IndexFrom i s substr.
Proof.
  revert i. induction s as [| c s IH]; intros i; cbn [IndexFrom].
  - destruct (String.prefix substr ""); [right; lia | left; reflexivity].
  - destruct (String.prefix substr (String c s)); [right; lia |].
    destruct (IH (i + 1)) as [H | H]; [left | right]; lia.
Qed.

(** [Contains(s, substr)] holds exactly when [substr] occurs in [s] *)
Lemma Contains_iff (s substr : string) :
  Contains s substr = true
  <-> exists pre post, s = (pre ++ substr ++ post)%string.
Proof.
  unfold Contains, Index.
  assert (G : forall i, 0 <= i ->
              (0 <= IndexFrom i s substr
               <-> exists pre post, s = (pre ++ substr ++ post)%string)).
  { induction s as [| c s IH]; intros i Hi; cbn [IndexFrom].
    - destruct (String.prefix substr "") eqn:E.
      + split; [| lia]. intros _. apply prefix_iff in E.
        destruct E as [rest E]. exists "", rest. exact E.
      + split; [lia |]. intros [pre [post H]].
        destruct pre; [| discriminate H]. simpl in H.
        assert (String.prefix substr "" = true)
          by (apply prefix_iff; exists post; exact H).
        congruence.
    - destruct (String.prefix substr (String c s)) eqn:E.
      + split; [| lia]. intros _. apply prefix_iff in E.
        destruct E as [rest E]. exists "", rest. exact E.
      + rewrite (IH (i + 1)) by lia. split.
        * intros [pre [post ->]]. exists (String c pre), post. reflexivity.
        * intros [pre [post H]]. destruct pre as [| a pre].
          -- simpl in H.
             assert (String.prefix substr (String c s) = true)
               by (apply prefix_iff; exists post; exact H).
             congruence.
          -- injection H as _ ->. exists pre, post. reflexivity. }
  rewrite <- (G 0) by lia. apply Z.leb_le.
Qed.

End StringFacts.

Example HasSuffix_ex1 : GoStrings.HasSuffix "www.example.com" "example.com" = true.
Proof. reflexivity. Qed.

Example HasSuffix_ex2 : GoStrings.HasSuffix "com" "example.com" = false.
Proof. reflexivity. Qed.

Example Index_ex1 : GoStrings.Index "www.example.com" "example.com" = 4.
Proof. reflexivity. Qed.

Example Index_ex2 : GoStrings.Index "www.example.com" "corp" = -1.
Proof. reflexivity. Qed.

Example Index_ex3 : GoStrings.Index "abc" "" = 0.
Proof. reflexivity. Qed.

Example Split_ex1 : GoStrings.SplitByte "/" "10.0.0.0/8" = ["10.0.0.0"; "8"].
Proof. reflexivity. Qed.

Example Split_ex2 : GoStrings.SplitByte ":" "" = [""].
Proof. reflexivity. Qed.

Example CIDRMask_ex1 : GoNet.CIDRMask 20 32 = [255; 255; 240; 0].
Proof. reflexivity. Qed.

Example CIDRMask_ex2 : GoNet.CIDRMask 33 32 = [].
Proof. reflexivity. Qed.

Example Contains_ex1 :
  GoNet.Contains {| GoNet.IPNet_IP := [10; 0; 0; 0];
                    GoNet.IPNet_Mask := [255; 0; 0; 0] |} [10; 1; 2; 3] = true.
Proof. reflexivity. Qed.

Example Contains_ex2 :
  GoNet.Contains {| GoNet.IPNet_IP := [10; 0; 0; 0];
                    GoNet.IPNet_Mask := [255; 0; 0; 0] |} [11; 1; 2; 3] = false.
Proof. reflexivity. Qed.

(** The round constants, as in the table [_K] of crypto/sha256 *)
Example K_table :
  List.length Sha256.K = 64%nat
  /\ firstn 4 Sha256.K = [0x428a2f98; 0x71374491; 0xb5c0fbcf; 0xe9b5dba5]
  /\ skipn 60 Sha256.K = [0x90befffa; 0xa4506ceb; 0xbef9a3f7; 0xc67178f2].
Proof. repeat split. Qed.

Example matchIP_ex1 :
  Router.matchIP
    [{| Router.Ip := [0; 0; 0; 0; 0; 0; 0; 0; 0; 0; 255; 255; 10; 0; 0; 0];
        Router.Prefix := 8 |}]
    [10; 1; 2; 3] = true.
Proof. reflexivity. Qed.

Example matchIP_ex2 :
  Router.matchIP
    [{| Router.Ip := [192; 168; 0; 0]; Router.Prefix := 16 |}]
    [0; 0; 0; 0; 0; 0; 0; 0; 0; 0; 255; 255; 192; 169; 0; 1] = false.
Proof. reflexivity. Qed.

(** An IPv4 network is not consulted for an IPv6 target *)
Example matchIP_ex3 :
  Router.matchIP
    [{| Router.Ip := [10; 0; 0; 0]; Router.Prefix := 0 |}]
    [32; 1; 13; 184; 0; 0; 0; 0; 0; 0; 0; 0; 0; 0; 0; 1] = false.
Proof. reflexivity. Qed.

(** * Router: matching and routing *)

Section RouterFacts.

Import Router RouterSpec.

Variable R : Runtime.




(** The loop over the three policies returns one of them *)
Lemma firstPolicy_range (m : Z -> bool) (i : Z) :
  firstPolicy m = Some i -> i = Block \/ i = Bypass \/ i = Proxy.
Proof.
  unfold firstPolicy. intros H. apply find_some in H. destruct H as [H _].
  simpl in H. intuition auto.
Qed.


(** A strategy other than [s] skips the block guarded by [s] *)
Lemma routeResolved_other (c : Client) (s : Z) (a : Address) :
  domainStrategy c <> s -> routeResolved R c s a = None.
Proof.
  intros H. unfold routeResolved.
  destruct (Z.eqb_spec (domainStrategy c) s); [contradiction | reflexivity].
Qed.


(** What the specification's four kinds of match say, in terms of the
    strings themselves *)
Lemma ruleMatches_meaning (target : string) (d : Domain) :
  ruleMatches R target d = true <->
  match Type_ d with
  | Domain_Full => Value d = target
  | Domain_Domain =>
      target = Value d
      \/ exists pre, target = (pre ++ "." ++ Value d)%string
  | Domain_Plain =>
      exists pre post, target = (pre ++ Value d ++ post)%string
  | Domain_Regex =>
      exists re, regexp_Compile R (Value d) = Some re /\ re target = true
  | Domain_Other _ => False
  end.
Proof.
  unfold ruleMatches. destruct (Type_ d).
  - apply Contains_iff.
  - destruct (regexp_Compile R (Value d)) as [re |].
    + split; [intros H; exists re; auto | intros [re' [[= <-] H]]; exact H].
    + split; [discriminate | intros [re' [H _]]; discriminate H].
  - apply anchored_suffix_iff.
  - apply String.eqb_eq.
  - split; [discriminate | tauto].
Qed.


(** *** DialConn on a blocked address *)

(** C3: when [Route] gives Block, [DialConn] returns an error and has
    called neither the underlay client nor the direct dialer. *)
Theorem C3_blocked_address_dials_nothing (c : Client) (a : Address) :
  Route R c a = Block ->
  exists msg, DialConn R c a = ([], Returned (Err msg)).
Proof.
  intros H. unfold DialConn. rewrite H. simpl. eexists. reflexivity.
Qed.

(** *** What [NewClient] guarantees *)

Lemma parseDefaultPolicy_range (s : string) (p : Z) :
  parseDefaultPolicy s = Some p -> p = Block \/ p = Bypass \/ p = Proxy.
Proof.
  unfold parseDefaultPolicy.
  destruct (String.eqb s "proxy"); [intros [= <-]; auto |].
  destruct (String.eqb s "bypass"); [intros [= <-]; auto |].
  destruct (String.eqb s "block"); [intros [= <-]; auto | discriminate].
Qed.

Lemma bind_Ok {A B} (r : result A) (k : A -> result B) (b : B) :
  bind r k = Ok b -> exists x, r = Ok x /\ k x = Ok b.
Proof.
  destruct r as [x | e]; simpl; [eauto | discriminate].
Qed.

Lemma NewClient_defaultPolicy (cfg : Config) (u : Dialer) (c : Client) :
  NewClient R cfg u = Ok c ->
  defaultPolicy c = Block \/ defaultPolicy c = Bypass
  \/ defaultPolicy c = Proxy.
Proof.
  unfold NewClient. intros H.
  apply bind_Ok in H. destruct H as [d [_ H]].
  apply bind_Ok in H. destruct H as [s [_ H]].
  apply bind_Ok in H. destruct H as [p [Hp H]].
  apply bind_Ok in H. destruct H as [d4 [_ H]].
  apply bind_Ok in H. destruct H as [d5 [_ H]].
  apply bind_Ok in H. destruct H as [c2 [_ H]].
  injection H as <-. simpl.
  destruct (parseDefaultPolicy _) eqn:E; [| discriminate].
  injection Hp as <-. eapply parseDefaultPolicy_range; eassumption.
Qed.

Lemma routeResolved_range (c : Client) (s : Z) (a : Address) (i : Z) :
  routeResolved R c s a = Some i -> i = Block \/ i = Bypass \/ i = Proxy.
Proof.
  unfold routeResolved, routeByIP.
  destruct (domainStrategy c =? s); [| discriminate].
  destruct (newIPAddress R a); [| discriminate].
  apply firstPolicy_range.
Qed.

(** [Route] returns a matched policy or the default one *)
Lemma Route_range (c : Client) (a : Address) :
  defaultPolicy c = Block \/ defaultPolicy c = Bypass
  \/ defaultPolicy c = Proxy ->
  Route R c a = Block \/ Route R c a = Bypass \/ Route R c a = Proxy.
Proof.
  intros Hd. unfold Route.
  destruct (AddressType a).
  - destruct (routeByIP c (IP a)) eqn:E; [| exact Hd].
    eapply firstPolicy_range; exact E.
  - destruct (routeResolved R c IPOnDemand a) eqn:E1;
      [eapply routeResolved_range; exact E1 |].
    destruct (routeByDomain R c (DomainName a)) eqn:E2;
      [eapply firstPolicy_range; exact E2 |].
    destruct (routeResolved R c IPIfNonMatch a) eqn:E3;
      [eapply routeResolved_range; exact E3 | exact Hd].
  - destruct (routeByIP c (IP a)) eqn:E; [| exact Hd].
    eapply firstPolicy_range; exact E.
Qed.

(** C9: for a client that [NewClient] returned, [Route] gives Block,
    Bypass or Proxy for every address, and [DialConn] never reaches its
    final panic. *)
Theorem C9_route_of_constructed_client_in_range
        (cfg : Config) (u : Dialer) (c : Client) :
  NewClient R cfg u = Ok c ->
  forall a : Address,
    (Route R c a = Block \/ Route R c a = Bypass \/ Route R c a = Proxy)
    /\ (forall msg, snd (DialConn R c a) <> Panicked msg).
Proof.
  intros H a.
  pose proof (Route_range c a (NewClient_defaultPolicy cfg u c H)) as Hr.
  split; [exact Hr |].
  intros msg. unfold DialConn.
  destruct Hr as [Hr | [Hr | Hr]]; rewrite Hr; simpl;
    try discriminate.
  destruct (direct c a); simpl; discriminate.
Qed.

(** *** Rules whose pattern does not compile *)

Lemma len_pos (x : string) : x <> "" -> (0 <? GoStrings.len x) = true.
Proof.
  intros H. destruct x as [| ch x]; [contradiction |].
  unfold GoStrings.len. simpl String.length. apply Z.ltb_lt. lia.
Qed.

(** A rule [prefix ++ left] with a non-empty [left] is collected *)
Lemma loadCodeFrom_In (prefix left : string) (strat : Z) (rules : list string) :
  left <> "" ->
  In (prefix ++ left) rules ->
  In {| code := left; strategy := strat |} (loadCodeFrom prefix strat rules).
Proof.
  intros Hne. induction rules as [| s rest IH]; simpl; [tauto |].
  intros [-> | Hin].
  - unfold GoStrings.HasPrefix. rewrite prefix_app, drop_app, (len_pos _ Hne).
    left. reflexivity.
  - destruct (GoStrings.HasPrefix s prefix); [| auto].
    destruct (0 <? GoStrings.len _); [right |]; auto.
Qed.

Lemma loadCode_In (cfg : Config) (prefix left : string) :
  left <> "" ->
  In (prefix ++ left)
     (Router_Proxy cfg ++ Router_Bypass cfg ++ Router_Block cfg)%list ->
  exists strat, In {| code := left; strategy := strat |} (loadCode cfg prefix).
Proof.
  intros Hne Hin. unfold loadCode.
  apply in_app_or in Hin. destruct Hin as [Hin | Hin];
    [| apply in_app_or in Hin; destruct Hin as [Hin | Hin]].
  - exists Proxy. apply in_or_app. left.
    apply loadCodeFrom_In; assumption.
  - exists Bypass. apply in_or_app. right. apply in_or_app. left.
    apply loadCodeFrom_In; assumption.
  - exists Block. apply in_or_app. right. apply in_or_app. right.
    apply loadCodeFrom_In; assumption.
Qed.

(** The regex loop stops with an error when one of its patterns does
    not compile *)
Lemma addRegex_fails (infos : list codeInfo) (info : codeInfo) :
  In info infos ->
  regexp_Compile R (code info) = None ->
  forall d, exists msg, addRegex R infos d = Err msg.
Proof.
  induction infos as [| x rest IH]; simpl; [tauto |].
  intros [-> | Hin] Hnone d.
  - rewrite Hnone. eexists. reflexivity.
  - destruct (regexp_Compile R (code x)); [| eexists; reflexivity].
    apply IH; assumption.
Qed.

(** C5: if some configured rule [regex:<pattern>] or [regexp:<pattern>]
    has a pattern that does not compile, [NewClient] returns an error.
    (The empty pattern compiles in Go; a rule with nothing after the
    prefix is skipped.) *)
Theorem C5_uncompilable_regex_fails_NewClient
        (cfg : Config) (u : Dialer) (rule pattern : string) :
  regexp_Compile R "" <> None ->
  In rule (Router_Proxy cfg ++ Router_Bypass cfg ++ Router_Block cfg)%list ->
  rule = "regex:" ++ pattern \/ rule = "regexp:" ++ pattern ->
  regexp_Compile R pattern = None ->
  exists msg, NewClient R cfg u = Err msg.
Proof.
  intros Hempty Hin Hrule Hnone.
  assert (Hne : pattern <> "") by (intros ->; contradiction).
  unfold NewClient.
  destruct (freedom_NewClient R); simpl; [| eexists; reflexivity].
  destruct (parseDomainStrategy _); simpl; [| eexists; reflexivity].
  destruct (parseDefaultPolicy _); simpl; [| eexists; reflexivity].
  destruct Hrule as [-> | ->].
  - destruct (loadCode_In cfg "regex:" pattern Hne Hin) as [strat Hinfo].
    destruct (addRegex_fails _ _ Hinfo Hnone
                (addLowered R Domain_Plain (loadCode cfg "keyword:")
                   (addLowered R Domain_Domain (loadCode cfg "domain:")
                      (loadGeoSite R cfg (loadCode cfg "geosite:") empty3))))
      as [msg Hmsg].
    rewrite Hmsg. simpl. eexists. reflexivity.
  - destruct (addRegex R (loadCode cfg "regex:") _) as [d4 | e]; simpl;
      [| eexists; reflexivity].
    destruct (loadCode_In cfg "regexp:" pattern Hne Hin) as [strat Hinfo].
    destruct (addRegex_fails _ _ Hinfo Hnone d4) as [msg Hmsg].
    rewrite Hmsg. simpl. eexists. reflexivity.
Qed.

End RouterFacts.

(** The rule set of the specification's example, built by [NewClient] *)
Example NewClient_specConfig :
  Router.NewClient Sample.runtime Sample.specConfig Sample.proxyDial
  = Ok Sample.specClient.
Proof. reflexivity. Qed.

Example NewClient_onDemandConfig :
  Router.NewClient Sample.runtime Sample.onDemandConfig Sample.proxyDial
  = Ok Sample.onDemandClient.
Proof. reflexivity. Qed.



(** [matchDomain] anchors a Domain rule at the first occurrence of the
    rule in the target, not at the suffix it has just tested: a subdomain
    that repeats the rule is missed, and a name that starts with the rule
    and ends with it unanchored is taken. *)
Example matchDomain_first_occurrence :
  Router.matchDomain Sample.runtime
    (Router.at0 (Router.domains Sample.specClient)) "xbad.example.bad.example"
  = false
  /\ Router.matchDomain Sample.runtime
       (Router.at0 (Router.domains Sample.specClient))
       "bad.example.notbad.example"
     = true.
Proof. split; reflexivity. Qed.

(** x.bad.example is blocked by the example's rule set, and dialling it
    returns the router's error without a call to either dialer. *)
Lemma C3_blocked_example :
  Router.Route Sample.runtime Sample.specClient
               (Sample.domainAddr "x.bad.example" 443) = Router.Block
  /\ exists msg,
      Router.DialConn Sample.runtime Sample.specClient
                      (Sample.domainAddr "x.bad.example" 443)
      = ([], Router.Returned (Err msg)).
Proof.
  split; [reflexivity |].
  apply C3_blocked_address_dials_nothing. reflexivity.
Defined.

(** The client of the example's rule set routes an address of each kind
    into the three policies. *)
Lemma C9_constructed_example :
  Router.NewClient Sample.runtime Sample.specConfig Sample.proxyDial
  = Ok Sample.specClient
  /\ forall a : Router.Address,
      (Router.Route Sample.runtime Sample.specClient a = Router.Block
       \/ Router.Route Sample.runtime Sample.specClient a = Router.Bypass
       \/ Router.Route Sample.runtime Sample.specClient a = Router.Proxy)
      /\ (forall msg,
             snd (Router.DialConn Sample.runtime Sample.specClient a)
             <> Router.Panicked msg).
Proof.
  split; [reflexivity |].
  apply (C9_route_of_constructed_client_in_range
           Sample.runtime Sample.specConfig Sample.proxyDial).
  reflexivity.
Defined.

(** The rule [regexp:(] of a block list stops [NewClient]. *)
Lemma C5_bad_regex_example :
  Router.regexp_Compile Sample.runtime "(" = None
  /\ exists msg,
      Router.NewClient Sample.runtime Sample.badRegexConfig Sample.proxyDial
      = Err msg.
Proof.
  split; [reflexivity |].
  apply (C5_uncompilable_regex_fails_NewClient
           Sample.runtime Sample.badRegexConfig Sample.proxyDial
           "regexp:(" "(").
  - discriminate.
  - simpl. right. left. reflexivity.
  - right. reflexivity.
  - reflexivity.
Defined.

Example NewClient_bad_regex_message :
  Router.NewClient Sample.runtime Sample.badRegexConfig Sample.proxyDial
  = Err "invalid regular expression: (".
Proof. reflexivity. Qed.

(** * ParseCipher *)

Section FingerprintFacts.

Import Fingerprint.

Variable all : list CipherSuite.

(** With [found] true, the scan appends the ID of the first suite named
    [p], if any, and logs nothing *)
Lemma scanSuites_find (p : string) (acc : list Z * list LogRecord) :
  scanSuites all p true acc =
    ((fst acc ++ match List.find (fun q => String.eqb (Name q) p) all with
                 | Some q => [ID q]
                 | None => []
                 end)%list,
     snd acc).
Proof.
  induction all as [| q rest IH]; simpl.
  - rewrite app_nil_r. destruct acc; reflexivity.
  - destruct (String.eqb (Name q) p); [reflexivity | exact IH].
Qed.

Lemma ParseCipher_from (s : list string) (acc : list Z * list LogRecord) :
  fold_left (fun acc p => scanSuites all p true acc) s acc =
    ((fst acc ++ idsOfNamed all s)%list, snd acc).
Proof.
  revert acc. induction s as [| p rest IH]; intros acc; simpl.
  - rewrite app_nil_r. destruct acc; reflexivity.
  - rewrite IH, scanSuites_find. simpl. rewrite <- app_assoc. reflexivity.
Qed.

(** C10: [ParseCipher] returns, in input order, the IDs of the entries
    that are the name of a suite of the TLS library, skips the others,
    and never logs the "invalid cipher suite" warning. *)
Theorem C10_ParseCipher_ids_of_named_suites (s : list string) :
  ParseCipher all s = (idsOfNamed all s, []).
Proof.
  unfold ParseCipher. rewrite ParseCipher_from. reflexivity.
Qed.

End FingerprintFacts.

Example ParseCipher_ex1 :
  Fingerprint.ParseCipher Fingerprint.goCipherSuites
    ["TLS_AES_128_GCM_SHA256"; "NO_SUCH_SUITE";
     "TLS_ECDHE_RSA_WITH_AES_128_GCM_SHA256"; "TLS_AES_128_GCM_SHA256"]
  = ([0x1301; 0xc02f; 0x1301], []).
Proof. reflexivity. Qed.

Example ParseCipher_ex2 :
  Fingerprint.ParseCipher Fingerprint.goCipherSuites [""] = ([], []).
Proof. reflexivity. Qed.

(** * SHA224String *)

Section HashFacts.

Import Common.

Lemma allLowerHex_append (a b : string) :
  allLowerHex (a ++ b) = allLowerHex a && allLowerHex b.
Proof.
  induction a as [| c a IH]; simpl; [reflexivity |].
  rewrite IH. apply andb_assoc.
Qed.

(** The 256 byte values, checked one by one: ["%02x"] prints the two
    digits that [encoding/hex] prints, and both are in [0-9a-f] *)
Lemma Sprintf_02x_table :
  forallb
    (fun n =>
       String.eqb (Sprintf_02x (Z.of_nat n))
                  (GoHex.EncodeToString [Z.of_nat n])
       && allLowerHex (Sprintf_02x (Z.of_nat n)))
    (seq 0 256) = true.
Proof. vm_compute. reflexivity. Qed.

Lemma Sprintf_02x_byte (v : Z) :
  0 <= v < 256 ->
  Sprintf_02x v = GoHex.EncodeToString [v]
  /\ allLowerHex (Sprintf_02x v) = true.
Proof.
  intros Hv.
  pose proof (proj1 (forallb_forall _ _) Sprintf_02x_table (Z.to_nat v)) as H.
  cbv beta in H. rewrite Z2Nat.id in H by lia.
  assert (Hin : In (Z.to_nat v) (seq 0 256)) by (apply in_seq; lia).
  apply H in Hin. apply andb_true_iff in Hin. destruct Hin as [H1 H2].
  apply String.eqb_eq in H1. auto.
Qed.

Lemma beBytes_length (w : nat) (x : Z) : List.length (Sha256.beBytes w x) = w.
Proof. unfold Sha256.beBytes. rewrite length_map, length_seq. reflexivity. Qed.

Lemma beBytes_range (w : nat) (x : Z) :
  Forall (fun v => 0 <= v < 256) (Sha256.beBytes w x).
Proof.
  unfold Sha256.beBytes. apply Forall_forall. intros v Hin.
  apply in_map_iff in Hin. destruct Hin as [i [<- _]].
  change 255 with (Z.ones 8). rewrite Z.land_ones by lia.
  apply Z.mod_pos_bound. lia.
Qed.

(** The digest is 28 bytes *)
Lemma Sum224_length (data : list Z) : List.length (Sha256.Sum224 data) = 28%nat.
Proof.
  unfold Sha256.Sum224.
  set (s := Sha256.blocks _ _ _).
  cbn [flat_map]. rewrite !length_app, !beBytes_length. reflexivity.
Qed.

Lemma Sum224_range (data : list Z) :
  Forall (fun v => 0 <= v < 256) (Sha256.Sum224 data).
Proof.
  unfold Sha256.Sum224.
  set (s := Sha256.blocks _ _ _).
  cbn [flat_map]. repeat (apply Forall_app; split); try apply beBytes_range.
  constructor.
Qed.

Lemma EncodeToString_cons (v : Z) (l : list Z) :
  GoHex.EncodeToString (v :: l)
  = (GoHex.EncodeToString [v] ++ GoHex.EncodeToString l)%string.
Proof. reflexivity. Qed.

Lemma EncodeToString_length (l : list Z) :
  String.length (GoHex.EncodeToString l) = (2 * List.length l)%nat.
Proof. induction l as [| v l IH]; simpl; [reflexivity | rewrite IH; lia]. Qed.

(** The loop [str += Sprintf("%02x", v)] over bytes is the hex encoding *)
Lemma hex_loop (val : list Z) (acc : string) :
  Forall (fun v => 0 <= v < 256) val ->
  fold_left (fun str v => (str ++ Sprintf_02x v)%string) val acc
  = (acc ++ GoHex.EncodeToString val)%string.
Proof.
  intros H. revert acc. induction H as [| v l Hv _ IH]; intros acc.
  - simpl. rewrite append_nil_r. reflexivity.
  - cbn [fold_left]. rewrite IH.
    rewrite (proj1 (Sprintf_02x_byte v Hv)), append_assoc.
    rewrite <- EncodeToString_cons. reflexivity.
Qed.

Lemma EncodeToString_lower (l : list Z) :
  Forall (fun v => 0 <= v < 256) l ->
  allLowerHex (GoHex.EncodeToString l) = true.
Proof.
  induction 1 as [| v l Hv _ IH]; [reflexivity |].
  rewrite EncodeToString_cons, allLowerHex_append, IH.
  destruct (Sprintf_02x_byte v Hv) as [H1 H2].
  rewrite <- H1, H2. reflexivity.
Qed.

(** C4: [SHA224String p] is the hex encoding of the SHA-224 digest of
    [p]: 56 characters, each in [0-9a-f]. *)
Theorem C4_SHA224String_is_lowercase_hex_of_digest (p : string) :
  SHA224String p = GoHex.EncodeToString (Sha256.Sum224 (bytesOf p))
  /\ String.length (SHA224String p) = 56%nat
  /\ allLowerHex (SHA224String p) = true.
Proof.
  assert (E : SHA224String p
              = GoHex.EncodeToString (Sha256.Sum224 (bytesOf p))).
  { unfold SHA224String. rewrite hex_loop by apply Sum224_range.
    reflexivity. }
  rewrite E. split; [reflexivity |]. split.
  - rewrite EncodeToString_length, Sum224_length. reflexivity.
  - apply EncodeToString_lower, Sum224_range.
Qed.

End HashFacts.

(** The digest is SHA-224: the test vectors of FIPS 180-4 *)
Example SHA224String_abc :
  Common.SHA224String "abc"
  = "23097d223405d8228642a477bda255b32aadbce4bda0b3f7e36c9da7".
Proof. vm_compute. reflexivity. Qed.

Example SHA224String_empty :
  Common.SHA224String ""
  = "d14a028c2a3a2bc9476102bb288234c415a2b01f828ea62ac5b3e42f".
Proof. vm_compute. reflexivity. Qed.

Example SHA224String_two_blocks :
  Common.SHA224String "abcdbcdecdefdefgefghfghighijhijkijkljklmklmnlmnomnopnopq"
  = "75388b16512776cc5dba5da1fd890150b0c6455cb4f58b1952522525".
Proof. vm_compute. reflexivity. Qed.

(** * Log level of the configuration *)

(** What [logLevelFromConfig] returns for the levels other than 4: debug
    for 0, info for 1, warn for 2, error for 3, a level above every record
    for 5, and info for any other value. *)
Lemma logLevelFromConfig_levels :
  ProxyLog.logLevelFromConfig 0 = Slog.LevelDebug
  /\ ProxyLog.logLevelFromConfig 1 = Slog.LevelInfo
  /\ ProxyLog.logLevelFromConfig 2 = Slog.LevelWarn
  /\ ProxyLog.logLevelFromConfig 3 = Slog.LevelError
  /\ Slog.Enabled (ProxyLog.logLevelFromConfig 5) Slogadapter.LevelFatal = false
  /\ forall level, level < 0 \/ 5 < level ->
                   ProxyLog.logLevelFromConfig level = Slog.LevelInfo.
Proof.
  repeat split; try reflexivity.
  intros level H. unfold ProxyLog.logLevelFromConfig.
  repeat match goal with
         | |- context [?a =? ?b] => destruct (Z.eqb_spec a b); [lia |]
         end.
  reflexivity.
Qed.

(** C6, at level 4: [logLevelFromConfig] returns the error level, the
    same as for 3, so error records are emitted and not only fatal ones;
    [mapLogLevelToSlog], the adapter's mapping of the same scale, returns
    the fatal level, under which an error record is not emitted. *)
Theorem C6_level_four_is_error_level :
  ProxyLog.logLevelFromConfig 4 = Slog.LevelError
  /\ ProxyLog.logLevelFromConfig 4 = ProxyLog.logLevelFromConfig 3
  /\ Slog.Enabled (ProxyLog.logLevelFromConfig 4) Slog.LevelError = true
  /\ Slogadapter.mapLogLevelToSlog Log.FatalLevel = Slogadapter.LevelFatal
  /\ Slog.Enabled (Slogadapter.mapLogLevelToSlog Log.FatalLevel)
                  Slog.LevelError = false
  /\ Slog.Enabled (Slogadapter.mapLogLevelToSlog Log.FatalLevel)
                  Slogadapter.LevelFatal = true.
Proof. repeat split; reflexivity. Qed.

(** * TLS client: the SNI *)

Section TLSFacts.

Import TLS.

Variable ReadFile : string -> option string.
Variable CipherSuites : list Fingerprint.CipherSuite.

Lemma defaultSNI_SNI (cfg : Config) :
  SNI (TLS_ (defaultSNI cfg))
  = if String.eqb (SNI (TLS_ cfg)) "" then RemoteHost cfg
    else SNI (TLS_ cfg).
Proof.
  unfold defaultSNI. destruct (String.eqb (SNI (TLS_ cfg)) ""); reflexivity.
Qed.

Lemma defaultSNI_rest (cfg : Config) :
  CertPath (TLS_ (defaultSNI cfg)) = CertPath (TLS_ cfg)
  /\ Fingerprint_ (TLS_ (defaultSNI cfg)) = Fingerprint_ (TLS_ cfg).
Proof.
  unfold defaultSNI. destruct (String.eqb (SNI (TLS_ cfg)) "");
    split; reflexivity.
Qed.

(** C7: the client that [NewClient] returns has the configured remote
    host as its SNI when the configured SNI is empty, and the configured
    SNI otherwise. [NewClient] returns a client unless the fingerprint
    is not one of the known names or the certificate file cannot be
    read. *)
Theorem C7_sni_defaults_to_remote_host (cfg : Config) :
  match snd (NewClient ReadFile CipherSuites cfg) with
  | Ok client =>
      sni client = if String.eqb (SNI (TLS_ cfg)) "" then RemoteHost cfg
                   else SNI (TLS_ cfg)
  | Err _ =>
      is_Err (parseFingerprint (Fingerprint_ (TLS_ cfg))) = true
      \/ (CertPath (TLS_ cfg) <> ""
          /\ ReadFile (CertPath (TLS_ cfg)) = None)
  end.
Proof.
  unfold NewClient.
  destruct (parseFingerprint (Fingerprint_ (TLS_ cfg))) as [hello | e];
    [| left; reflexivity].
  destruct (defaultSNI_rest cfg) as [Hc _]. rewrite Hc.
  destruct (String.eqb (CertPath (TLS_ cfg)) "") eqn:Ecert; cbn [negb].
  - cbn [snd sni]. apply defaultSNI_SNI.
  - destruct (ReadFile (CertPath (TLS_ cfg))) eqn:Eread; cbn [snd sni].
    + apply defaultSNI_SNI.
    + right. split; [| reflexivity].
      intros E. rewrite E in Ecert. discriminate.
Qed.

End TLSFacts.

Example NewClient_sni_empty :
  option_map TLS.sni
    (match snd (TLS.NewClient (fun _ => None) Fingerprint.goCipherSuites
                  {| TLS.RemoteHost := "proxy.example.org";
                     TLS.TLS_ := {| TLS.Verify := true; TLS.SNI := "";
                                    TLS.Cipher := ""; TLS.ReuseSession := true;
                                    TLS.Fingerprint_ := "firefox";
                                    TLS.CertPath := "" |} |}) with
     | Ok c => Some c
     | Err _ => None
     end)
  = Some "proxy.example.org".
Proof. reflexivity. Qed.

Example NewClient_sni_given :
  option_map TLS.sni
    (match snd (TLS.NewClient (fun _ => None) Fingerprint.goCipherSuites
                  {| TLS.RemoteHost := "proxy.example.org";
                     TLS.TLS_ := {| TLS.Verify := true; TLS.SNI := "cdn.example.net";
                                    TLS.Cipher := "TLS_AES_128_GCM_SHA256";
                                    TLS.ReuseSession := true;
                                    TLS.Fingerprint_ := "";
                                    TLS.CertPath := "" |} |}) with
     | Ok c => Some c
     | Err _ => None
     end)
  = Some "cdn.example.net".
Proof. reflexivity. Qed.

(** * FallbackWriter *)

Section WriterFacts.

Import Slogadapter.

Variable underlying : WriterRef -> list Z -> Z * option string.

(** Whatever the two writers are and do, [Write] returns a nil error *)
Lemma Write_nil_error (fw : FallbackWriter) (p : list Z) :
  snd (snd (Write underlying fw p)) = None.
Proof.
  unfold Write.
  destruct (primary fw) as [w |].
  - destruct (underlying w p) as [n [e |]]; [| reflexivity].
    destruct (fallback fw) as [f |]; [| reflexivity].
    destruct (negb (sameWriter (Some f) (Some w))); [| reflexivity].
    destruct (underlying f p) as [n' [e' |]]; reflexivity.
  - destruct (fallback fw) as [f |]; [| reflexivity].
    destruct (negb (sameWriter (Some f) None)); [| reflexivity].
    destruct (underlying f p) as [n' [e' |]]; reflexivity.
Qed.

Lemma sameWriter_Some (a b : WriterRef) :
  sameWriter (Some a) (Some b) = true -> a = b.
Proof. simpl. apply Nat.eqb_eq. Qed.

(** C8: [Write] never returns an error, in any state of the writer.
    For a writer made by [NewFallbackWriter], whose fallback is the one
    given or else stderr: when the primary writer fails, the bytes are
    handed to the fallback writer (if that is the primary writer itself,
    in the call that failed; it is not called again), and when the
    fallback fails too the call reports [len(p)]. *)
Theorem C8_Write_never_propagates_an_error
        (prim fb : option WriterRef) (eh : option HandlerRef) (p : list Z) :
  let fw := NewFallbackWriter prim fb eh in
  let f := match fb with Some w => w | None => Stderr end in
  (forall fw', snd (snd (Write underlying fw' p)) = None)
  /\ fallback fw = Some f
  /\ forall w k e,
      prim = Some w -> underlying w p = (k, Some e) ->
      In (WriteCall f p) (fst (Write underlying fw p))
      /\ (forall k' e', underlying f p = (k', Some e') ->
                        snd (Write underlying fw p) = (GoNet.len p, None))
      /\ (forall k', underlying f p = (k', None) ->
                     snd (Write underlying fw p) = (k', None)).
Proof.
  intros fw f. split; [intros fw'; apply Write_nil_error |].
  assert (Hf : fallback fw = Some f) by (subst fw f; destruct fb; reflexivity).
  split; [exact Hf |].
  intros w k e Hprim Hfail.
  unfold Write. rewrite Hf.
  replace (primary fw) with (Some w) by (subst fw; rewrite Hprim; reflexivity).
  rewrite Hfail.
  destruct (sameWriter (Some f) (Some w)) eqn:Esame; cbn [negb].
  - apply sameWriter_Some in Esame. subst w. rewrite Hfail.
    split; [left; reflexivity |].
    split; [reflexivity |]. intros k' E. discriminate E.
  - destruct (underlying f p) as [n' [e' |]] eqn:Ef.
    + split; [cbn [fst]; apply in_or_app; right; left; reflexivity |].
      split; [reflexivity |]. intros k' E. discriminate E.
    + split; [cbn [fst]; apply in_or_app; right; left; reflexivity |].
      split; [intros k' e' E; discriminate E |].
      intros k' [= <-]. reflexivity.
Qed.

End WriterFacts.

(** A log file that is full (writer 5) and a closed stderr: the record is
    offered to both and dropped, and the caller sees [len(p)] and no
    error. *)
Lemma C8_both_writers_fail_example :
  let underlying := fun (w : Slogadapter.WriterRef) (_ : list Z) =>
                      (0, Some (if Nat.eqb w 5 then "no space left on device"
                                else "file already closed")) in
  Slogadapter.Write underlying
    (Slogadapter.NewFallbackWriter (Some 5%nat) None None) [104; 105]
  = ([Slogadapter.WriteCall 5%nat [104; 105];
      Slogadapter.HandleError Slogadapter.DefaultErrorHandler
        "no space left on device" "primary writer failed";
      Slogadapter.WriteCall Slogadapter.Stderr [104; 105];
      Slogadapter.HandleError Slogadapter.DefaultErrorHandler
        "file already closed" "fallback writer failed"],
     (2, None))
  /\ In (Slogadapter.WriteCall Slogadapter.Stderr [104; 105])
        (fst (Slogadapter.Write underlying
                (Slogadapter.NewFallbackWriter (Some 5%nat) None None)
                [104; 105])).
Proof.
  intros underlying. split; [reflexivity |].
  apply (C8_Write_never_propagates_an_error underlying (Some 5%nat) None None
           [104; 105]) with (w := 5%nat) (k := 0)
                            (e := "no space left on device");
    reflexivity.
Defined.

(** * Redirector *)

Section RedirectorFacts.

Import Redirector.

Lemma NewRedirector_capacity (done : bool) :
  chanCap (NewRedirector done) = 64
  /\ redirectionChan (NewRedirector done) = [].
Proof. split; reflexivity. Qed.

(** C2 (as amended): the queue is a channel of capacity 64. When it is
    full, [Redirect] does not drop the new inbound connection: it stays
    blocked while the context is live, and returns without queueing
    once the context is done. When there is room and the context is
    live it queues the request. In no case does [Redirect] close the
    inbound connection. *)
Theorem C2_Redirect_blocks_on_full_queue
        (pickSend : bool) (r : Redirector) (redirection : Redirection) :
  (forall done, chanCap (NewRedirector done) = 64)
  /\ (chanCap r <= GoNet.len (redirectionChan r) ->
      (ctxDone r = false -> Redirect pickSend r redirection = Blocks)
      /\ (ctxDone r = true ->
          Redirect pickSend r redirection
          = Returns r [Log (LogDebug "redirector exiting")]))
  /\ (GoNet.len (redirectionChan r) < chanCap r -> ctxDone r = false ->
      exists r',
        Redirect pickSend r redirection
        = Returns r' [Log (LogDebug "redirect request")]
        /\ redirectionChan r' = (redirectionChan r ++ [redirection])%list)
  /\ (forall r' events c,
         Redirect pickSend r redirection = Returns r' events ->
         ~ In (CloseConn c) events).
Proof.
  split; [reflexivity |]. unfold Redirect, canSend.
  split; [| split].
  - intros Hfull.
    destruct (Z.ltb_spec (GoNet.len (redirectionChan r)) (chanCap r));
      [lia |].
    split; intros ->; reflexivity.
  - intros Hroom ->.
    destruct (Z.ltb_spec (GoNet.len (redirectionChan r)) (chanCap r));
      [| lia].
    eexists. split; reflexivity.
  - intros r' events c.
    destruct (GoNet.len (redirectionChan r) <? chanCap r), (ctxDone r),
      pickSend; intros [= <- <-] || discriminate;
      simpl; intros [H | []]; discriminate H.
Qed.

End RedirectorFacts.

(** After 64 requests the queue of a new redirector is full, and the 65th
    call stays blocked: the connection is neither queued nor closed. *)
Lemma C2_full_queue_example :
  let r := Redirector.fill 64 (Redirector.NewRedirector false)
                           Redirector.sampleRedirection in
  Redirector.chanCap r <= GoNet.len (Redirector.redirectionChan r)
  /\ Redirector.ctxDone r = false
  /\ Redirector.Redirect true r Redirector.sampleRedirection
     = Redirector.Blocks.
Proof.
  intros r. split; [vm_compute; discriminate |]. split; [reflexivity |].
  apply (C2_Redirect_blocks_on_full_queue true r Redirector.sampleRedirection).
  - vm_compute. discriminate.
  - reflexivity.
Defined.

(** The full queue does not drop the new inbound connection. *)
Lemma C2_full_queue_does_not_drop :
  GoNet.len (Redirector.redirectionChan
               (Redirector.fill 64 (Redirector.NewRedirector false)
                                Redirector.sampleRedirection)) = 64
  /\ ~ Redirector.dropsInbound
         (Redirector.fill 64 (Redirector.NewRedirector false)
                          Redirector.sampleRedirection)
         Redirector.sampleRedirection.
Proof.
  split; [reflexivity |].
  intros H. destruct (H true) as [r' [events [c [_ [E _]]]]].
  vm_compute in E. discriminate E.
Qed.
